(** * discord.py: the libopus binding ([discord/opus.py]) and the command
      invocation context ([discord/ext/commands/context.py])

    A shallow embedding of the two Python modules.  Python integers are [Z],
    Python floats are IEEE-754 binary64 values in the sense of the standard
    library's [SpecFloat], [bytes] objects are [list byte], keyword
    dictionaries are [gmap string _].  Code that raises returns a [result];
    code that reads or writes the module global [_lib], the attributes of
    [self] or the native library runs in a small state-and-exception monad. *)

From Stdlib Require Import ZArith List Lia Bool String Strings.Byte.
From Stdlib Require Import QArith Qround.
From Stdlib Require Import Floats.SpecFloat.
From stdpp Require Import base option list gmap strings.

Local Open Scope string_scope.
Local Open Scope list_scope.
Local Open Scope Z_scope.

(** ** The fragment of the Python runtime the two modules rely on *)

Module Py.

(** The exceptions that the modelled code can raise.  [OpusError] and
    [OpusNotLoaded] are the two classes declared in [opus.py]; the others are
    built-in exceptions raised by the interpreter or by [ctypes]. *)
Inductive PyExc : Type :=
| OpusError (code : Z) (msg : string)
| OpusNotLoaded
| OSError (name : option string)
| AttributeError (attr : string)
| KeyError (key : string)
| OverflowError
| ZeroDivisionError
| ValueError.

Inductive result (A : Type) : Type :=
| Ok (a : A)
| Raise (e : PyExc).
Arguments Ok {A} a.
Arguments Raise {A} e.

Definition is_Ok {A} (r : result A) : bool :=
  match r with Ok _ => true | Raise _ => false end.

(** *** Floats

    [x / y] on two [int]s is the correctly rounded quotient (it raises
    [OverflowError] when that quotient is out of the range of a double),
    [float * int] converts the [int] first, and [int(x)] truncates towards
    zero.  All three are computed with the binary64 instance of [SpecFloat]. *)

Definition prec : Z := 53.
Definition emax : Z := 1024.

Definition float : Type := spec_float.

(** The exact value of an [int], as an unrounded significand with exponent 0. *)
Definition exact_of_int (n : Z) : float :=
  match n with
  | Z0 => S754_zero false
  | Zpos p => S754_finite false p 0
  | Zneg p => S754_finite true p 0
  end.

(** [float(n)]: too large an [int] does not convert. *)
Definition float_of_int (n : Z) : result float :=
  match binary_normalize prec emax n 0 false with
  | S754_infinity _ => Raise OverflowError
  | x => Ok x
  end.

(** [a / b] for [int]s [a] and [b]. *)
Definition int_truediv (a b : Z) : result float :=
  if b =? 0 then Raise ZeroDivisionError
  else match SFdiv prec emax (exact_of_int a) (exact_of_int b) with
       | S754_infinity _ => Raise OverflowError
       | q => Ok q
       end.

(** [x * n] for a [float] [x] and an [int] [n]; an overflowing product is an
    infinity, not an exception. *)
Definition float_mul_int (x : float) (n : Z) : result float :=
  match float_of_int n with
  | Ok y => Ok (SFmul prec emax x y)
  | Raise e => Raise e
  end.

(** [int(x)]. *)
Definition int_of_float (x : float) : result Z :=
  match x with
  | S754_zero _ => Ok 0
  | S754_finite s m e =>
      Ok (cond_Zopp s (match e with
                       | Zneg k => Z.shiftr (Zpos m) (Zpos k)
                       | _ => Z.shiftl (Zpos m) e
                       end))
  | S754_infinity _ => Raise OverflowError
  | S754_nan => Raise ValueError
  end.

(** *** Bytes and [array.array('b', ...)] *)

Definition bytes : Type := list byte.

Definition int8_of_byte (b : byte) : Z :=
  let n := Z.of_N (Byte.to_N b) in
  if n <? 128 then n else n - 256.

Definition byte_of_int8 (z : Z) : byte :=
  match Byte.of_N (Z.to_N (z mod 256)) with
  | Some b => b
  | None => x00
  end.

(** [array.array('b', bs)]: the signed chars held by the array. *)
Definition array_b (bs : bytes) : list Z := map int8_of_byte bs.

(** [a.tobytes()] *)
Definition tobytes (a : list Z) : bytes := map byte_of_int8 a.

(** *** State and exceptions *)

Definition M (S A : Type) : Type := S -> result A * S.

Definition ret {S A} (a : A) : M S A := fun s => (Ok a, s).
Definition raise {S A} (e : PyExc) : M S A := fun s => (Raise e, s).
Definition bind {S A B} (m : M S A) (k : A -> M S B) : M S B :=
  fun s => match m s with
           | (Ok a, s') => k a s'
           | (Raise e, s') => (Raise e, s')
           end.
Definition get {S} : M S S := fun s => (Ok s, s).
Definition put {S} (s : S) : M S unit := fun _ => (Ok tt, s).
Definition modify {S} (f : S -> S) : M S unit := fun s => (Ok tt, f s).
Definition lift {S A} (r : result A) : M S A := fun s => (r, s).

(** [try: m except: h] with a bare [except]. *)
Definition try_except {S A} (m : M S A) (h : M S A) : M S A :=
  fun s => match m s with
           | (Ok a, s') => (Ok a, s')
           | (Raise _, s') => h s'
           end.

End Py.

Import Py.

(** The monad operations are registered with stdpp's [mret]/[mbind] classes, so
    that the embedded code is written [x ← m; k] and [m;; k]. *)
#[global] Instance result_ret : MRet result := fun A => @Ok A.
#[global] Instance result_bind : MBind result := fun A B k r =>
  match r with Ok a => k a | Raise e => Raise e end.
#[global] Instance M_ret {S} : MRet (M S) := fun A => @ret S A.
#[global] Instance M_bind {S} : MBind (M S) := fun A B k m => @bind S A B m k.

(** ** [discord/opus.py] *)

Module Opus.

(** *** The foreign-function table *)

Inductive ctype : Type :=
| c_int | c_int32 | c_char_p | c_int_ptr | c_int16_ptr | c_float_ptr
| EncoderStructPtr.

(** A list of exported functions: the name, the types of the arguments it
    takes, the result type ([None] is Python's [None], for [void]). *)
Definition exported_functions : list (string * list ctype * option ctype) :=
  [ ("opus_strerror", [c_int], Some c_char_p);
    ("opus_encoder_get_size", [c_int], Some c_int);
    ("opus_encoder_create", [c_int; c_int; c_int; c_int_ptr], Some EncoderStructPtr);
    ("opus_encode", [EncoderStructPtr; c_int16_ptr; c_int; c_char_p; c_int32], Some c_int32);
    ("opus_encoder_destroy", [EncoderStructPtr], None) ].

(** *** The native library

    The value of [self._state]: either the pointer object handed back by
    [opus_encoder_create] (with its address; a NULL pointer is [Ptr 0]) or
    Python's [None]. *)
Inductive PyHandle : Type :=
| PyNone
| Ptr (addr : Z).

(** One call into the shared object, with the arguments of the Python call
    site (output parameters left out). *)
Inductive NativeCall : Type :=
| call_opus_strerror (code : Z)
| call_opus_encoder_create (Fs channels application : Z)
| call_opus_encode (st : PyHandle) (pcm : bytes) (frame_size max_data_bytes : Z)
| call_opus_encoder_destroy (st : PyHandle).

(** A shared object as [ctypes.cdll.LoadLibrary] returns it: the symbols it
    exports and what its functions answer.  The library keeps state of its own
    between calls, so an answer may depend on every call made so far.
    [opus_strerror] gives the message already decoded; [opus_encoder_create]
    gives the address of the new state and the value stored through its
    [int *error] argument; [opus_encode] gives its return value and the bytes
    it stored in the output buffer. *)
Record CDLL : Type := {
  exports : list string;
  opus_strerror : list NativeCall -> Z -> string;
  opus_encoder_create : list NativeCall -> Z -> Z -> Z -> Z * Z;
  opus_encode : list NativeCall -> PyHandle -> bytes -> Z -> Z -> Z * bytes
}.

(** The library object after [libopus_loader] has run over it: the shared
    object and the prototypes registered on its functions. *)
Record Lib : Type := {
  dll : CDLL;
  prototypes : list (string * list ctype * option ctype)
}.

(** What lies outside the process: which name [find_library] resolves to and
    which shared objects [LoadLibrary] can open ([None] is the name [None]). *)
Record Env : Type := {
  find_library : string -> option string;
  LoadLibrary : option string -> option CDLL
}.

(** The process: the module global [_lib] and the calls made into libopus. *)
Record World : Type := {
  _lib : option Lib;
  native_log : list NativeCall
}.

Definition set_lib (l : option Lib) (w : World) : World :=
  {| _lib := l; native_log := native_log w |}.

Definition log_call (c : NativeCall) (w : World) : World :=
  {| _lib := _lib w; native_log := native_log w ++ [c] |}.

(** *** [libopus_loader], [load_opus], [is_loaded] *)

(** [getattr(lib, name)] *)
Definition getattr_symbol (lib : CDLL) (name : string) : result unit :=
  if bool_decide (name ∈ exports lib) then Ok tt else Raise (AttributeError name).

(** The loop that registers the functions, over the remaining items. *)
Fixpoint register_functions (lib : CDLL)
    (items acc : list (string * list ctype * option ctype))
    : result (list (string * list ctype * option ctype)) :=
  match items with
  | [] => Ok acc
  | item :: rest =>
      match getattr_symbol lib (fst (fst item)) with
      | Raise e => Raise e
      | Ok _ => register_functions lib rest (acc ++ [item])
      end
  end.

Definition libopus_loader (env : Env) (name : option string) : result Lib :=
  match LoadLibrary env name with
  | None => Raise (OSError name)
  | Some lib =>
      match register_functions lib exported_functions [] with
      | Raise e => Raise e
      | Ok protos => Ok {| dll := lib; prototypes := protos |}
      end
  end.

(** The module-level statement
    [try: _lib = libopus_loader(find_library('opus')) except: _lib = None]. *)
Definition module_init (env : Env) : M World unit :=
  try_except
    (l ← lift (libopus_loader env (find_library env "opus"));
     modify (set_lib (Some l)))
    (modify (set_lib None)).

Definition load_opus (env : Env) (name : string) : M World unit :=
  l ← lift (libopus_loader env (Some name));
  modify (set_lib (Some l)).

Definition is_loaded (w : World) : bool :=
  match _lib w with Some _ => true | None => false end.

(** *** Calls through [_lib] *)

(** [_lib.<name>]: the attribute lookup on the global, which fails on [None]. *)
Definition the_lib (name : string) : M World Lib :=
  w ← get;
  match _lib w with
  | Some l => mret l
  | None => raise (AttributeError name)
  end.

(** [OpusError(code)]: the constructor asks the library for the message. *)
Definition OpusError__init__ (code : Z) : M World PyExc :=
  l ← the_lib "opus_strerror";
  w ← get;
  let msg := opus_strerror (dll l) (native_log w) code in
  modify (log_call (call_opus_strerror code));;
  mret (OpusError code msg).

Definition raise_OpusError {A} (code : Z) : M World A :=
  e ← OpusError__init__ code;
  raise e.

(** Some constants... *)
Definition OK : Z := 0.
Definition APPLICATION_AUDIO : Z := 2049.
Definition APPLICATION_VOIP : Z := 2048.
Definition APPLICATION_LOWDELAY : Z := 2051.

(** *** [class Encoder] *)

(** The instance attributes; an attribute that has not been assigned yet is
    [None] (so [hasattr(self, '_state')] is [is_Some (_state self)]). *)
Record Encoder : Type := {
  sampling_rate : option Z;
  channels : option Z;
  application : option Z;
  frame_length : option Z;
  sample_size : option Z;
  samples_per_frame : option Z;
  frame_size : option Z;
  _state : option PyHandle
}.

(** The object [__init__] receives. *)
Definition new_object : Encoder :=
  {| sampling_rate := None; channels := None; application := None;
     frame_length := None; sample_size := None; samples_per_frame := None;
     frame_size := None; _state := None |}.

Definition set_sampling_rate (v : Z) (e : Encoder) : Encoder :=
  {| sampling_rate := Some v; channels := channels e; application := application e;
     frame_length := frame_length e; sample_size := sample_size e;
     samples_per_frame := samples_per_frame e; frame_size := frame_size e;
     _state := _state e |}.
Definition set_channels (v : Z) (e : Encoder) : Encoder :=
  {| sampling_rate := sampling_rate e; channels := Some v; application := application e;
     frame_length := frame_length e; sample_size := sample_size e;
     samples_per_frame := samples_per_frame e; frame_size := frame_size e;
     _state := _state e |}.
Definition set_application (v : Z) (e : Encoder) : Encoder :=
  {| sampling_rate := sampling_rate e; channels := channels e; application := Some v;
     frame_length := frame_length e; sample_size := sample_size e;
     samples_per_frame := samples_per_frame e; frame_size := frame_size e;
     _state := _state e |}.
Definition set_frame_length (v : Z) (e : Encoder) : Encoder :=
  {| sampling_rate := sampling_rate e; channels := channels e; application := application e;
     frame_length := Some v; sample_size := sample_size e;
     samples_per_frame := samples_per_frame e; frame_size := frame_size e;
     _state := _state e |}.
Definition set_sample_size (v : Z) (e : Encoder) : Encoder :=
  {| sampling_rate := sampling_rate e; channels := channels e; application := application e;
     frame_length := frame_length e; sample_size := Some v;
     samples_per_frame := samples_per_frame e; frame_size := frame_size e;
     _state := _state e |}.
Definition set_samples_per_frame (v : Z) (e : Encoder) : Encoder :=
  {| sampling_rate := sampling_rate e; channels := channels e; application := application e;
     frame_length := frame_length e; sample_size := sample_size e;
     samples_per_frame := Some v; frame_size := frame_size e;
     _state := _state e |}.
Definition set_frame_size (v : Z) (e : Encoder) : Encoder :=
  {| sampling_rate := sampling_rate e; channels := channels e; application := application e;
     frame_length := frame_length e; sample_size := sample_size e;
     samples_per_frame := samples_per_frame e; frame_size := Some v;
     _state := _state e |}.
Definition set_state (v : PyHandle) (e : Encoder) : Encoder :=
  {| sampling_rate := sampling_rate e; channels := channels e; application := application e;
     frame_length := frame_length e; sample_size := sample_size e;
     samples_per_frame := samples_per_frame e; frame_size := frame_size e;
     _state := Some v |}.

(** A method runs on [self] and on the process. *)
Record Frame : Type := { self : Encoder; world : World }.

Definition in_world {A} (m : M World A) : M Frame A :=
  fun f => let '(r, w) := m (world f) in (r, {| self := self f; world := w |}).

(** [self.<name> = v] *)
Definition setattr (upd : Encoder -> Encoder) : M Frame unit :=
  modify (fun f => {| self := upd (self f); world := world f |}).

(** [self.<name>] *)
Definition getattr {A} (field : Encoder -> option A) (name : string) : M Frame A :=
  f ← get;
  match field (self f) with
  | Some v => mret v
  | None => raise (AttributeError name)
  end.

(** [int(sampling_rate / 1000 * frame_length)] *)
Definition samples_in_frame (sampling_rate frame_length : Z) : result Z :=
  q ← int_truediv sampling_rate 1000;
  p ← float_mul_int q frame_length;
  int_of_float p.

Definition Encoder_create_state : M Frame PyHandle :=
  l ← in_world (the_lib "opus_encoder_create");
  sr ← getattr sampling_rate "sampling_rate";
  ch ← getattr channels "channels";
  app ← getattr application "application";
  w ← in_world get;
  let '(result, ret) := opus_encoder_create (dll l) (native_log w) sr ch app in
  in_world (modify (log_call (call_opus_encoder_create sr ch app)));;
  if negb (ret =? 0) then in_world (raise_OpusError ret)
  else mret (Ptr result).

(** [application] is [None] when the caller leaves the argument out. *)
Definition Encoder__init__ (sampling channels : Z) (application : option Z)
    : M Frame unit :=
  let application := default APPLICATION_AUDIO application in
  setattr (set_sampling_rate sampling);;
  setattr (set_channels channels);;
  setattr (set_application application);;
  setattr (set_frame_length 20);;
  ch ← getattr Opus.channels "channels";
  setattr (set_sample_size (2 * ch));;
  sr ← getattr sampling_rate "sampling_rate";
  fl ← getattr frame_length "frame_length";
  n ← lift (samples_in_frame sr fl);
  setattr (set_samples_per_frame n);;
  spf ← getattr samples_per_frame "samples_per_frame";
  ss ← getattr sample_size "sample_size";
  setattr (set_frame_size (spf * ss));;
  f ← get;
  if negb (is_loaded (world f)) then raise OpusNotLoaded
  else
    st ← Encoder_create_state;
    setattr (set_state st).

Definition Encoder__del__ : M Frame unit :=
  f ← get;
  match _state (self f) with
  | Some st =>
      in_world (the_lib "opus_encoder_destroy";;
                modify (log_call (call_opus_encoder_destroy st)));;
      setattr (set_state PyNone)
  | None => mret tt
  end.

(** The output buffer [data] after the library has stored [out] at its start. *)
Definition store (out data : bytes) : bytes :=
  take (length data) (out ++ drop (length out) data).

Definition Encoder_encode (pcm : bytes) (frame_size : Z) : M Frame bytes :=
  let max_data_bytes := Z.of_nat (length pcm) in
  let data := replicate (length pcm) x00 in
  l ← in_world (the_lib "opus_encode");
  st ← getattr _state "_state";
  w ← in_world get;
  let '(ret, out) :=
    opus_encode (dll l) (native_log w) st pcm frame_size max_data_bytes in
  in_world (modify (log_call (call_opus_encode st pcm frame_size max_data_bytes)));;
  let data := store out data in
  if ret <? 0 then in_world (raise_OpusError ret)
  else mret (tobytes (array_b (take (Z.to_nat ret) data))).

(** [Encoder(sampling, channels, application)]: allocate, then initialise. *)
Definition construct (sampling channels : Z) (application : option Z) (w : World)
    : result unit * Frame :=
  Encoder__init__ sampling channels application {| self := new_object; world := w |}.

(** *** Vocabulary of the specification *)

(** The sampling rates the geometry is checked on: every rate up to 48 kHz,
    the highest of the five that libopus accepts (8, 12, 16, 24 and 48 kHz). *)
Definition valid_sampling_rate (s : Z) : Prop := 0 <= s <= 48000.

(** floor(s / 1000 * 20), over the rationals. *)
Definition floor_frame_samples (s : Z) : Z := Qfloor (inject_Z s / 1000 * 20)%Q.

Definition geometry_ok (s : Z) : bool :=
  match samples_in_frame s 20 with
  | Ok n => n =? s / 50
  | Raise _ => false
  end.

(** [geometry_ok] on the [Zpos p] rates from [base] on, by halving [p]. *)
Fixpoint geometry_ok_from (p : positive) (base : Z) : bool :=
  match p with
  | xH => geometry_ok base
  | xO q => geometry_ok_from q base && geometry_ok_from q (base + Zpos q)
  | xI q => geometry_ok base && geometry_ok_from q (base + 1)
            && geometry_ok_from q (base + 1 + Zpos q)
  end.

(** [self] once the geometry has been stored, before [_state] is. *)
Definition with_geometry (s c app n : Z) : Encoder :=
  {| sampling_rate := Some s; channels := Some c; application := Some app;
     frame_length := Some 20; sample_size := Some (2 * c);
     samples_per_frame := Some n; frame_size := Some (n * (2 * c));
     _state := None |}.

(** [self] when [int(...)] raised. *)
Definition without_geometry (s c app : Z) : Encoder :=
  {| sampling_rate := Some s; channels := Some c; application := Some app;
     frame_length := Some 20; sample_size := Some (2 * c);
     samples_per_frame := None; frame_size := None; _state := None |}.

(** The three states of an encoder.  Ready: the constructor has succeeded and
    the encoder has not been torn down, so the library is bound and [_state]
    holds the pointer from [opus_encoder_create].  Closed: [__del__] has
    destroyed the state and stored [None].  Before [_state] is assigned, and
    for good when the constructor raises, the attribute does not exist. *)
Definition Ready (f : Frame) : Prop :=
  is_Some (_lib (world f)) /\ exists p, _state (self f) = Some (Ptr p).

Definition Closed (f : Frame) : Prop :=
  is_Some (_lib (world f)) /\ _state (self f) = Some PyNone.

Definition never_Ready (f : Frame) : Prop := _state (self f) = None.

(** The names [libopus_loader] looks up. *)
Definition required_symbols : list string :=
  map (fun item => fst (fst item)) exported_functions.

(** What the specification calls LoadError: the exception [load_opus] lets
    through, either [LoadLibrary]'s on the name or [getattr]'s on a symbol. *)
Definition LoadError (name : string) (e : PyExc) : Prop :=
  e = OSError (Some name) \/
  exists sym, sym ∈ required_symbols /\ e = AttributeError sym.

(** What the specification calls CodecError. *)
Definition CodecError {A} (r : result A) : Prop :=
  exists code msg, r = Raise (OpusError code msg).

(** A failure that is not a CodecError. *)
Definition fails_otherwise {A} (r : result A) : Prop :=
  match r with
  | Ok _ => False
  | Raise (OpusError _ _) => False
  | Raise _ => True
  end.

(** The calls to [opus_encoder_destroy] and to [opus_encoder_create] in a log. *)
Definition destroy_calls (log : list NativeCall) : list PyHandle :=
  omap (fun c => match c with call_opus_encoder_destroy st => Some st | _ => None end) log.

Definition is_create (c : NativeCall) : bool :=
  match c with call_opus_encoder_create _ _ _ => true | _ => false end.

End Opus.

(** ** [discord/ext/commands/context.py] *)

Module Context.

(** The values a keyword argument or an attribute can hold, as far as this
    module looks into them; any other object is a reference. *)
#[warnings="-register-all"]
Inductive PyVal : Type :=
| VNone
| VStr (s : string)
| VInt (n : Z)
| VList (items : list PyVal)
| VDict (items : list (string * PyVal))
| VRef (id : positive).

(** The attributes named in [__slots__]. *)
Record Context : Type := {
  message : PyVal;
  bot : PyVal;
  args : PyVal;
  kwargs : PyVal;
  command : PyVal;
  view : PyVal;
  invoked_with : PyVal;
  invoked_subcommand : PyVal;
  subcommand_passed : PyVal;
  prefix : PyVal
}.

Definition slots : list string :=
  [ "message"; "bot"; "args"; "kwargs"; "command"; "view";
    "invoked_with"; "invoked_subcommand"; "subcommand_passed"; "prefix" ].

(** [attrs.pop(key, default)], and [attrs.pop(key)] when [default] is [None]. *)
Definition pop (key : string) (default : option PyVal)
    : M (gmap string PyVal) PyVal :=
  fun attrs =>
    match attrs !! key with
    | Some v => (Ok v, delete key attrs)
    | None =>
        match default with
        | Some d => (Ok d, attrs)
        | None => (Raise (KeyError key), attrs)
        end
    end.

Definition Context__init__ (attrs : gmap string PyVal) : result Context :=
  fst ((message ← pop "message" (Some VNone);
        bot ← pop "bot" (Some VNone);
        args ← pop "args" (Some (VList []));
        kwargs ← pop "kwargs" (Some (VDict []));
        prefix ← pop "prefix" None;
        command ← pop "command" (Some VNone);
        view ← pop "view" (Some VNone);
        invoked_with ← pop "invoked_with" (Some VNone);
        invoked_subcommand ← pop "invoked_subcommand" (Some VNone);
        subcommand_passed ← pop "subcommand_passed" (Some VNone);
        mret {| message := message; bot := bot; args := args; kwargs := kwargs;
                command := command; view := view; invoked_with := invoked_with;
                invoked_subcommand := invoked_subcommand;
                subcommand_passed := subcommand_passed; prefix := prefix |})
       attrs).

(** A generator-based coroutine, by what it does when driven: it returns,
    raises, or yields a value and waits for the one sent back. *)
Inductive Coroutine : Type :=
| Return (v : PyVal)
| Throw (e : PyExc)
| Yield (v : PyVal) (resume : PyVal -> Coroutine).

(** [r = yield from g], followed by [k r]. *)
Fixpoint yield_from (g : Coroutine) (k : PyVal -> Coroutine) : Coroutine :=
  match g with
  | Return v => k v
  | Throw e => Throw e
  | Yield v resume => Yield v (fun sent => yield_from (resume sent) k)
  end.

(** What [Context.invoke] uses of a command: its [invoke] method and its
    [callback] attribute. *)
Record Command : Type := {
  invoke : Context -> Coroutine;
  callback : gmap string PyVal -> Coroutine
}.

Definition Context_invoke (self : Context) (command : Command)
    (kwargs : gmap string PyVal) : Coroutine :=
  if Z.of_nat (size kwargs) =? 0
  then yield_from (invoke command self) (fun _ => Return VNone)
  else yield_from (callback command kwargs) (fun _ => Return VNone).

(** The defaults of the constructor. *)
Definition field_or (d : PyVal) (attrs : gmap string PyVal) (key : string) : PyVal :=
  default d (attrs !! key).

End Context.

(** ** A small world to run the code in *)

Module Demo.
Import Opus.

(** A stand-in for libopus: the messages of [opus_strerror], an encoder
    state at a fixed address for the arguments libopus accepts
    ([OPUS_BAD_ARG] otherwise), and an encoder that answers every frame with
    the three bytes of a silence packet, [OPUS_BUFFER_TOO_SMALL] when they do
    not fit and [OPUS_BAD_ARG] when it is given no state. *)
Definition strerror_table (code : Z) : string :=
  if code =? 0 then "success"
  else if code =? -1 then "invalid argument"
  else if code =? -2 then "buffer too small"
  else if code =? -3 then "internal error"
  else if code =? -4 then "corrupted stream"
  else if code =? -5 then "request not implemented"
  else if code =? -6 then "invalid state"
  else if code =? -7 then "memory allocation failed"
  else "unknown error".

Definition libopus : CDLL :=
  {| exports := [ "opus_strerror"; "opus_encoder_get_size"; "opus_encoder_create";
                  "opus_encode"; "opus_encoder_destroy"; "opus_decode" ];
     opus_strerror := fun _ code => strerror_table code;
     opus_encoder_create := fun _ Fs channels application =>
       if bool_decide (Fs ∈ [8000; 12000; 16000; 24000; 48000])
          && bool_decide (channels ∈ [1; 2])
          && bool_decide (application ∈ [2048; 2049; 2051])
       then (4096, 0) else (0, -1);
     opus_encode := fun _ st _ _ max_data_bytes =>
       match st with
       | Ptr 4096 =>
           if max_data_bytes <? 3 then (-2, [])
           else (3, [ "248"%byte; "255"%byte; "254"%byte ])
       | _ => (-1, [])
       end |}.

(** A shared object that exports none of the functions. *)
Definition libm : CDLL :=
  {| exports := [ "cos"; "sin" ];
     opus_strerror := fun _ _ => "";
     opus_encoder_create := fun _ _ _ _ => (0, 0);
     opus_encode := fun _ _ _ _ _ => (0, []) |}.

(** An old build that lacks [opus_encoder_destroy]. *)
Definition libopus_partial : CDLL :=
  {| exports := [ "opus_strerror"; "opus_encoder_get_size"; "opus_encoder_create";
                  "opus_encode" ];
     opus_strerror := opus_strerror libopus;
     opus_encoder_create := opus_encoder_create libopus;
     opus_encode := opus_encode libopus |}.

Definition env : Env :=
  {| find_library := fun name =>
       if String.eqb name "opus" then Some "libopus.so.0" else None;
     LoadLibrary := fun name =>
       match name with
       | Some n =>
           if String.eqb n "libopus.so.0" then Some libopus
           else if String.eqb n "libopus-old.so" then Some libopus_partial
           else if String.eqb n "libm.so.6" then Some libm
           else None
       | None => Some libm
       end |}.

(** A machine without libopus. *)
Definition bare_env : Env :=
  {| find_library := fun _ => None;
     LoadLibrary := fun name =>
       match name with
       | Some _ => None
       | None => Some libm
       end |}.

(** What [libopus_loader] returns for [libopus]. *)
Definition binding : Lib := {| dll := libopus; prototypes := exported_functions |}.

(** The process before the module is imported. *)
Definition boot : World := {| _lib := None; native_log := [] |}.

(** The process after the import. *)
Definition loaded : World := snd (module_init env boot).
Definition unloaded : World := snd (module_init bare_env boot).

(** One 20 ms frame of stereo silence at 48 kHz. *)
Definition silence : bytes := replicate 3840 "000"%byte.

(** Too little input for the encoder to have room for a packet. *)
Definition too_short : bytes := [ "000"%byte; "000"%byte ].

(** An encoder that has been constructed, and the same after [__del__]. *)
Definition ready : Frame := snd (construct 48000 2 None loaded).
Definition closed : Frame := snd (Encoder__del__ ready).

(** The object left behind by a constructor that raised. *)
Definition failed : Frame := snd (construct 48000 2 None unloaded).

(** Keyword arguments for a [Context]: without a prefix, and with one. *)
Definition bare : gmap string Context.PyVal :=
  {[ "message" := Context.VRef 1; "colour" := Context.VInt 7 ]}.
Definition full : gmap string Context.PyVal :=
  <[ "prefix" := Context.VStr "!" ]> bare.

(** Two contexts that differ in their prefix. *)
Definition ctx : Context.Context :=
  {| Context.message := Context.VRef 1; Context.bot := Context.VRef 2;
     Context.args := Context.VList []; Context.kwargs := Context.VDict [];
     Context.command := Context.VNone; Context.view := Context.VNone;
     Context.invoked_with := Context.VNone;
     Context.invoked_subcommand := Context.VNone;
     Context.subcommand_passed := Context.VNone;
     Context.prefix := Context.VStr "!" |}.

Definition other_ctx : Context.Context :=
  {| Context.message := Context.VRef 3; Context.bot := Context.VRef 2;
     Context.args := Context.VList []; Context.kwargs := Context.VDict [];
     Context.command := Context.VNone; Context.view := Context.VNone;
     Context.invoked_with := Context.VNone;
     Context.invoked_subcommand := Context.VNone;
     Context.subcommand_passed := Context.VNone;
     Context.prefix := Context.VStr "?" |}.

(** A command whose entry point yields the prefix of the context it is given,
    and whose callback yields its [name] argument and returns what is sent. *)
Definition echo : Context.Command :=
  {| Context.invoke := fun c =>
       Context.Yield (Context.prefix c) (fun _ => Context.Return (Context.VStr "done"));
     Context.callback := fun kw =>
       Context.Yield (Context.field_or Context.VNone kw "name")
                     (fun sent => Context.Return sent) |}.

Definition name_kwargs : gmap string Context.PyVal :=
  {[ "name" := Context.VStr "opus" ]}.

End Demo.

(** ** Programs over the two modules *)

(** What a program can do with [opus.py]: load a library, construct an
    encoder (from then on the one it drives), encode with it, tear it down. *)
Module Lifecycle.
Import Opus.

Inductive Op : Type :=
| do_load (name : string)
| do_construct (sampling channels : Z) (application : option Z)
| do_encode (pcm : bytes) (frame_size : Z)
| do_del.

(** One operation, whether it returns or raises. *)
Definition step (env : Env) (o : Op) (f : Frame) : Frame :=
  match o with
  | do_load name =>
      {| self := self f; world := snd (load_opus env name (world f)) |}
  | do_construct s c application => snd (construct s c application (world f))
  | do_encode pcm frame_size => snd (Encoder_encode pcm frame_size f)
  | do_del => snd (Encoder__del__ f)
  end.

Definition run (env : Env) (ops : list Op) (f : Frame) : Frame :=
  fold_left (fun f o => step env o f) ops f.

(** The process before the module is imported, and right after. *)
Definition fresh_process : World := {| _lib := None; native_log := [] |}.

Definition start (env : Env) : Frame :=
  {| self := new_object; world := snd (module_init env fresh_process) |}.

(** [__del__] run [n] times in a row. *)
Fixpoint teardowns (n : nat) (f : Frame) : Frame :=
  match n with
  | O => f
  | S k => teardowns k (snd (Encoder__del__ f))
  end.

(** What every operation keeps: a state is there only with a library bound,
    and nothing has been called while none is. *)
Definition consistent (f : Frame) : Prop :=
  (is_Some (_state (self f)) -> is_Some (_lib (world f))) /\
  (_lib (world f) = None -> native_log (world f) = []).

(** The first name of the list that the shared object does not export. *)
Fixpoint first_missing (lib : CDLL) (names : list string) : option string :=
  match names with
  | [] => None
  | name :: rest =>
      if bool_decide (name ∈ exports lib) then first_missing lib rest else Some name
  end.

End Lifecycle.

(** A later build of libopus, whose encoder answers with a one-byte packet,
    and a machine that has it installed beside the first. *)
Module Upgrade.
Import Opus.

Definition libopus_next : CDLL :=
  {| exports := exports Demo.libopus;
     opus_strerror := opus_strerror Demo.libopus;
     opus_encoder_create := opus_encoder_create Demo.libopus;
     opus_encode := fun _ st _ _ max_data_bytes =>
       match st with
       | Ptr 4096 => if max_data_bytes <? 1 then (-2, []) else (1, [ "248"%byte ])
       | _ => (-1, [])
       end |}.

Definition env : Env :=
  {| find_library := find_library Demo.env;
     LoadLibrary := fun name =>
       match name with
       | Some n =>
           if String.eqb n "libopus.so.1" then Some libopus_next
           else LoadLibrary Demo.env name
       | None => LoadLibrary Demo.env name
       end |}.

End Upgrade.

(** Driving a coroutine: the values it yields when it is sent the given
    values one after the other, and how it stands after the last one. *)
Module Driver.
Import Context.

Inductive Outcome : Type :=
| Returned (v : PyVal)
| Raised (e : PyExc)
| Suspended.

Fixpoint drive (g : Coroutine) (sent : list PyVal) : list PyVal * Outcome :=
  match g with
  | Return v => ([], Returned v)
  | Throw e => ([], Raised e)
  | Yield v resume =>
      match sent with
      | [] => ([v], Suspended)
      | x :: rest => let '(ys, o) := drive (resume x) rest in (v :: ys, o)
      end
  end.

(** The keyword arguments that spell out every attribute of a context. *)
Definition attrs_of (c : Context) : gmap string PyVal :=
  <[ "message" := message c ]>
  (<[ "bot" := bot c ]>
  (<[ "args" := args c ]>
  (<[ "kwargs" := kwargs c ]>
  (<[ "prefix" := prefix c ]>
  (<[ "command" := command c ]>
  (<[ "view" := view c ]>
  (<[ "invoked_with" := invoked_with c ]>
  (<[ "invoked_subcommand" := invoked_subcommand c ]>
  (<[ "subcommand_passed" := subcommand_passed c ]> ∅))))))))).

End Driver.

(** ** Properties of [opus.py] *)

Module OpusSpec.
Import Opus.

(** Unfolds the monad and the attribute accesses, leaving the native answers
    and the float arithmetic folded. *)
Ltac run_py :=
  cbv beta iota zeta delta
    [mbind mret M_bind M_ret result_bind result_ret bind ret raise get put
     modify lift in_world setattr getattr the_lib raise_OpusError
     OpusError__init__ self world _lib native_log log_call set_lib
     sampling_rate channels application frame_length sample_size
     samples_per_frame frame_size _state
     set_sampling_rate set_channels set_application set_frame_length
     set_sample_size set_samples_per_frame set_frame_size set_state
     new_object is_loaded negb].

Arguments samples_in_frame : simpl never.

(** *** Frame geometry *)

Lemma geometry_ok_from_sound p : forall base s,
  geometry_ok_from p base = true -> base <= s < base + Zpos p -> geometry_ok s = true.
Proof.
  induction p as [q IH | q IH | ]; intros base s H Hs; simpl in H.
  - apply andb_prop in H as [H H2]. apply andb_prop in H as [H0 H1].
    destruct (Z.eq_dec s base) as [-> | Hne]; [exact H0 |].
    destruct (Z_lt_dec s (base + 1 + Zpos q)).
    + apply (IH (base + 1)); [exact H1 | lia].
    + apply (IH (base + 1 + Zpos q)); [exact H2 | lia].
  - apply andb_prop in H as [H1 H2].
    destruct (Z_lt_dec s (base + Zpos q)).
    + apply (IH base); [exact H1 | lia].
    + apply (IH (base + Zpos q)); [exact H2 | lia].
  - assert (s = base) as -> by lia. exact H.
Qed.

Lemma geometry_checked : geometry_ok_from 48001 0 = true.
Proof. vm_compute. reflexivity. Qed.

Lemma samples_in_frame_valid s :
  valid_sampling_rate s -> samples_in_frame s 20 = Ok (s / 50).
Proof.
  intros Hs.
  assert (H : geometry_ok s = true).
  { apply (geometry_ok_from_sound 48001 0); [exact geometry_checked |].
    unfold valid_sampling_rate in Hs. lia. }
  unfold geometry_ok in H. destruct (samples_in_frame s 20) as [n | e]; [| discriminate].
  apply Z.eqb_eq in H. congruence.
Qed.

Lemma floor_frame_samples_div s : floor_frame_samples s = s / 50.
Proof.
  unfold floor_frame_samples. cbn.
  change (Z.pos (1 * 1000 * 1)) with (20 * 50).
  replace (s * 1 * 20) with (20 * s) by lia.
  rewrite Z.div_mul_cancel_l by lia. reflexivity.
Qed.

(** *** What a construction does, case by case *)

Lemma construct_cases s c application w :
  let app := default APPLICATION_AUDIO application in
  construct s c application w =
  match samples_in_frame s 20 with
  | Raise e => (Raise e, {| self := without_geometry s c app; world := w |})
  | Ok n =>
      match _lib w with
      | None => (Raise OpusNotLoaded, {| self := with_geometry s c app n; world := w |})
      | Some l =>
          let create := call_opus_encoder_create s c app in
          let '(result, ret) := opus_encoder_create (dll l) (native_log w) s c app in
          if ret =? 0
          then (Ok tt, {| self := set_state (Ptr result) (with_geometry s c app n);
                          world := log_call create w |})
          else (Raise (OpusError ret (opus_strerror (dll l) (native_log w ++ [create]) ret)),
                {| self := with_geometry s c app n;
                   world := log_call (call_opus_strerror ret) (log_call create w) |})
      end
  end.
Proof.
  intros app. unfold construct, Encoder__init__, Encoder_create_state.
  fold app. run_py.
  destruct (samples_in_frame s 20) as [n | e]; [| reflexivity].
  destruct w as [[l |] tr]; run_py; [| reflexivity].
  destruct (opus_encoder_create (dll l) tr s c app) as [result ret].
  run_py. destruct (ret =? 0); reflexivity.
Qed.

(** C1. On every valid sampling rate and every channel count, whatever the
    application and the state of the process, the constructor stores a frame
    length of 20 ms, a sample size of [2 * channels] bytes,
    floor(sampling / 1000 * 20) samples per frame and a frame size of that many
    samples times the sample size. *)
Theorem C1_frame_geometry (w : World) (s c : Z) (application : option Z) :
  valid_sampling_rate s ->
  let e := self (snd (construct s c application w)) in
  frame_length e = Some 20 /\
  sample_size e = Some (2 * c) /\
  samples_per_frame e = Some (floor_frame_samples s) /\
  frame_size e = Some (floor_frame_samples s * (2 * c)).
Proof.
  intros Hs. rewrite construct_cases, (samples_in_frame_valid s Hs).
  rewrite floor_frame_samples_div.
  destruct (_lib w) as [l |]; [| cbn; auto].
  destruct (opus_encoder_create _ _ _ _ _) as [result ret].
  destruct (ret =? 0); cbn; auto.
Qed.

(** The example of the specification: 48 kHz stereo. *)
Lemma C1_frame_geometry_witness :
  valid_sampling_rate 48000 /\
  let e := self (snd (construct 48000 2 None Demo.loaded)) in
  frame_length e = Some 20 /\
  sample_size e = Some (2 * 2) /\
  samples_per_frame e = Some (floor_frame_samples 48000) /\
  frame_size e = Some (floor_frame_samples 48000 * (2 * 2)).
Proof.
  split; [unfold valid_sampling_rate; lia |].
  apply (C1_frame_geometry Demo.loaded 48000 2 None).
  unfold valid_sampling_rate; lia.
Defined.

Example geometry_48000_stereo :
  samples_per_frame (self Demo.ready) = Some 960 /\
  sample_size (self Demo.ready) = Some 4 /\
  frame_size (self Demo.ready) = Some 3840.
Proof. vm_compute. auto. Qed.

(** *** [encode] *)

Lemma byte_of_int8_of_byte b : byte_of_int8 (int8_of_byte b) = b.
Proof. destruct b; reflexivity. Qed.

Lemma tobytes_array_b bs : tobytes (array_b bs) = bs.
Proof.
  unfold tobytes, array_b. induction bs as [| b bs IH]; [reflexivity |].
  cbn [map]. rewrite byte_of_int8_of_byte. f_equal. exact IH.
Qed.

Lemma store_length out data : length (store out data) = length data.
Proof.
  unfold store. rewrite length_take, length_app, length_drop. lia.
Qed.

(** [encode] on any object that has a [_state], with a library bound. *)
Lemma encode_cases f l st pcm frame_size :
  _lib (world f) = Some l -> _state (self f) = Some st ->
  let max_data_bytes := Z.of_nat (length pcm) in
  let call := call_opus_encode st pcm frame_size max_data_bytes in
  let w := world f in
  Encoder_encode pcm frame_size f =
  let '(ret, out) := opus_encode (dll l) (native_log w) st pcm frame_size max_data_bytes in
  if ret <? 0
  then (Raise (OpusError ret (opus_strerror (dll l) (native_log w ++ [call]) ret)),
        {| self := self f;
           world := log_call (call_opus_strerror ret) (log_call call w) |})
  else (Ok (take (Z.to_nat ret) (store out (replicate (length pcm) "000"%byte))),
        {| self := self f; world := log_call call w |}).
Proof.
  intros Hl Hst. destruct f as [[sr ch app fl ss spf fs st0] [lib tr]].
  cbn in Hl, Hst. subst lib st0.
  unfold Encoder_encode. run_py.
  destruct (opus_encode _ _ _ _ _ _) as [ret out]. run_py.
  destruct (ret <? 0); [reflexivity |].
  rewrite tobytes_array_b. reflexivity.
Qed.

(** C2. An encode on a Ready encoder makes one native encode call whose
    maximum output size is the length of [pcm]; on a negative status it raises
    [OpusError] with that status (after asking the library for the message), and
    otherwise it returns the first [ret] bytes of the output buffer, which are
    never more than [pcm] has. *)
Theorem C2_encode (f : Frame) (l : Lib) (p : Z) (pcm : bytes) (frame_size : Z) :
  _lib (world f) = Some l -> _state (self f) = Some (Ptr p) ->
  let max_data_bytes := Z.of_nat (length pcm) in
  let call := call_opus_encode (Ptr p) pcm frame_size max_data_bytes in
  let log := native_log (world f) in
  let '(ret, out) := opus_encode (dll l) log (Ptr p) pcm frame_size max_data_bytes in
  let data := store out (replicate (length pcm) "000"%byte) in
  let '(r, f') := Encoder_encode pcm frame_size f in
  if ret <? 0
  then r = Raise (OpusError ret (opus_strerror (dll l) (log ++ [call]) ret)) /\
       native_log (world f') = log ++ [call] ++ [call_opus_strerror ret]
  else r = Ok (take (Z.to_nat ret) data) /\
       native_log (world f') = log ++ [call] /\
       (length (take (Z.to_nat ret) data) <= length pcm)%nat.
Proof.
  intros Hl Hst. cbv zeta. rewrite (encode_cases f l (Ptr p) pcm frame_size Hl Hst).
  cbv zeta.
  destruct (opus_encode _ _ _ _ _ _) as [ret out].
  destruct (ret <? 0); cbn.
  - split; [reflexivity |]. rewrite <- app_assoc. reflexivity.
  - split; [reflexivity |]. split; [reflexivity |].
    rewrite length_take, store_length, length_replicate. lia.
Qed.

(** Importing the module in the demo world binds libopus, without any call. *)
Example import_binds_libopus :
  Demo.loaded = {| _lib := Some Demo.binding; native_log := [] |} /\
  Demo.unloaded = {| _lib := None; native_log := [] |}.
Proof. split; reflexivity. Qed.




Lemma C2_encode_witness :
  _lib (world Demo.ready) = Some Demo.binding /\
  _state (self Demo.ready) = Some (Ptr 4096) /\
  let pcm := Demo.silence in
  let max_data_bytes := Z.of_nat (length pcm) in
  let call := call_opus_encode (Ptr 4096) pcm 960 max_data_bytes in
  let log := native_log (world Demo.ready) in
  let '(ret, out) := opus_encode (dll Demo.binding) log (Ptr 4096) pcm 960 max_data_bytes in
  let data := store out (replicate (length pcm) "000"%byte) in
  let '(r, f') := Encoder_encode pcm 960 Demo.ready in
  if ret <? 0
  then r = Raise (OpusError ret (opus_strerror (dll Demo.binding) (log ++ [call]) ret)) /\
       native_log (world f') = log ++ [call] ++ [call_opus_strerror ret]
  else r = Ok (take (Z.to_nat ret) data) /\
       native_log (world f') = log ++ [call] /\
       (length (take (Z.to_nat ret) data) <= length pcm)%nat.
Proof.
  split; [reflexivity |]. split; [reflexivity |].
  exact (C2_encode Demo.ready Demo.binding 4096 Demo.silence 960 eq_refl eq_refl).
Defined.

Example encode_silence :
  Encoder_encode Demo.silence 960 Demo.ready =
  (Ok [ "248"%byte; "255"%byte; "254"%byte ],
   {| self := self Demo.ready;
      world := {| _lib := Some Demo.binding;
                  native_log := [ call_opus_encoder_create 48000 2 2049;
                                  call_opus_encode (Ptr 4096) Demo.silence 960 3840 ] |} |}).
Proof. vm_compute. reflexivity. Qed.

(** An encode whose input leaves no room for a packet: [OPUS_BUFFER_TOO_SMALL]. *)
Example encode_too_small :
  fst (Encoder_encode [ "000"%byte; "000"%byte ] 960 Demo.ready) =
  Raise (OpusError (-2) "buffer too small").
Proof. vm_compute. reflexivity. Qed.

(** *** Failure of [encode] *)

Lemma Ready_inv f : Ready f ->
  exists l p, _lib (world f) = Some l /\ _state (self f) = Some (Ptr p).
Proof. intros [[l Hl] [p Hp]]. exists l, p. split; assumption. Qed.

(** C7. When an encode on a Ready encoder fails with [OpusError], the status
    was negative, [self] and the binding are what they were, the encoder is
    still Ready, and the next encode goes to the library with the same state. *)
Theorem C7_encode_failure_keeps_ready (f f' : Frame) (pcm : bytes)
    (frame_size code : Z) (msg : string) :
  Ready f ->
  Encoder_encode pcm frame_size f = (Raise (OpusError code msg), f') ->
  code < 0 /\
  self f' = self f /\
  _lib (world f') = _lib (world f) /\
  Ready f' /\
  forall pcm2 frame_size2, exists p rest,
    _state (self f) = Some (Ptr p) /\
    native_log (world (snd (Encoder_encode pcm2 frame_size2 f'))) =
    native_log (world f') ++
    call_opus_encode (Ptr p) pcm2 frame_size2 (Z.of_nat (length pcm2)) :: rest.
Proof.
  intros HR Henc. destruct (Ready_inv f HR) as (l & p & Hl & Hst).
  rewrite (encode_cases f l (Ptr p) pcm frame_size Hl Hst) in Henc. cbv zeta in Henc.
  destruct (opus_encode _ _ _ _ _ _) as [ret out].
  destruct (ret <? 0) eqn:Hneg; [| discriminate].
  injection Henc as Hcode _ Hf'. subst code f'. cbn [self world _lib log_call].
  assert (HR' : Ready
    {| self := self f;
       world := log_call (call_opus_strerror ret)
                  (log_call (call_opus_encode (Ptr p) pcm frame_size
                               (Z.of_nat (length pcm))) (world f)) |}).
  { split; cbn; [rewrite Hl; eauto | eauto]. }
  repeat split; [lia | exact (proj1 HR') | exact (proj2 HR') |].
  intros pcm2 frame_size2. exists p.
  rewrite (encode_cases _ l (Ptr p) pcm2 frame_size2); [| exact Hl | exact Hst].
  cbv zeta. destruct (opus_encode _ _ _ _ _ _) as [ret2 out2].
  destruct (ret2 <? 0); cbn; eexists; (split; [exact Hst |]).
  - rewrite <- !app_assoc. reflexivity.
  - reflexivity.
Qed.

Lemma C7_encode_failure_keeps_ready_witness :
  let f := Demo.ready in
  let f' := snd (Encoder_encode Demo.too_short 960 f) in
  Ready f /\
  Encoder_encode Demo.too_short 960 f = (Raise (OpusError (-2) "buffer too small"), f') /\
  (-2 < 0 /\
   self f' = self f /\
   _lib (world f') = _lib (world f) /\
   Ready f' /\
   forall pcm2 frame_size2, exists p rest,
     _state (self f) = Some (Ptr p) /\
     native_log (world (snd (Encoder_encode pcm2 frame_size2 f'))) =
     native_log (world f') ++
     call_opus_encode (Ptr p) pcm2 frame_size2 (Z.of_nat (length pcm2)) :: rest).
Proof.
  assert (HR : Ready Demo.ready).
  { split; [exists Demo.binding; reflexivity | exists 4096; reflexivity]. }
  split; [exact HR |]. split; [reflexivity |].
  apply (C7_encode_failure_keeps_ready Demo.ready _ Demo.too_short 960 (-2)
           "buffer too small" HR).
  reflexivity.
Defined.

(** *** Teardown *)

Lemma del_without_state f : never_Ready f -> Encoder__del__ f = (Ok tt, f).
Proof.
  unfold never_Ready. destruct f as [[sr ch app fl ss spf fs st0] w]. cbn.
  intros ->. reflexivity.
Qed.

Lemma del_with_state f l st :
  _lib (world f) = Some l -> _state (self f) = Some st ->
  Encoder__del__ f =
  (Ok tt, {| self := set_state PyNone (self f);
             world := log_call (call_opus_encoder_destroy st) (world f) |}).
Proof.
  destruct f as [[sr ch app fl ss spf fs st0] [lib tr]]. cbn.
  intros -> ->. reflexivity.
Qed.

(** A constructor that raised has not assigned [_state]. *)
Lemma construct_Raise_never_Ready s c application w e f :
  construct s c application w = (Raise e, f) -> never_Ready f.
Proof.
  rewrite construct_cases. cbv zeta.
  destruct (samples_in_frame s 20) as [n | e0].
  - destruct (_lib w) as [l |].
    + destruct (opus_encoder_create _ _ _ _ _) as [result ret].
      destruct (ret =? 0); [discriminate |].
      intros [= _ <-]. reflexivity.
    + intros [= _ <-]. reflexivity.
  - intros [= _ <-]. reflexivity.
Qed.

(** A constructor that returned leaves a Ready encoder. *)
Lemma construct_Ok_Ready s c application w f :
  construct s c application w = (Ok tt, f) -> Ready f.
Proof.
  rewrite construct_cases. cbv zeta.
  destruct (samples_in_frame s 20) as [n | e0]; [| discriminate].
  destruct (_lib w) as [l |] eqn:Hl; [| discriminate].
  destruct (opus_encoder_create _ _ _ _ _) as [result ret].
  destruct (ret =? 0); [| discriminate].
  intros [= <-]. split; cbn; [rewrite Hl |]; eauto.
Qed.

(** C3 (amended). Teardown of an encoder that never reached Ready makes no
    native call, raises nothing and changes nothing.  Teardown of an encoder
    that has a state passes it to [opus_encoder_destroy] once and stores
    [None]; a second teardown raises nothing and leaves [self] as it is, and it
    calls [opus_encoder_destroy] again, on [None] and not on the destroyed
    state. *)
Theorem C3_teardown (f : Frame) (l : Lib) (st : PyHandle) :
  (never_Ready f -> Encoder__del__ f = (Ok tt, f)) /\
  (_lib (world f) = Some l -> _state (self f) = Some st ->
   let '(r1, f1) := Encoder__del__ f in
   let '(r2, f2) := Encoder__del__ f1 in
   r1 = Ok tt /\
   native_log (world f1) = native_log (world f) ++ [call_opus_encoder_destroy st] /\
   Closed f1 /\
   r2 = Ok tt /\
   self f2 = self f1 /\
   _lib (world f2) = _lib (world f1) /\
   native_log (world f2) = native_log (world f1) ++ [call_opus_encoder_destroy PyNone]).
Proof.
  split; [apply del_without_state |].
  intros Hl Hst. rewrite (del_with_state f l st Hl Hst).
  rewrite (del_with_state _ l PyNone); [| exact Hl | reflexivity].
  cbn. unfold Closed. cbn. rewrite Hl.
  repeat split; eauto.
Qed.

Lemma C3_teardown_witness :
  never_Ready Demo.failed /\
  Encoder__del__ Demo.failed = (Ok tt, Demo.failed) /\
  _lib (world Demo.ready) = Some Demo.binding /\
  _state (self Demo.ready) = Some (Ptr 4096) /\
  let '(r1, f1) := Encoder__del__ Demo.ready in
  let '(r2, f2) := Encoder__del__ f1 in
  r1 = Ok tt /\
  native_log (world f1) =
    native_log (world Demo.ready) ++ [call_opus_encoder_destroy (Ptr 4096)] /\
  Closed f1 /\
  r2 = Ok tt /\
  self f2 = self f1 /\
  _lib (world f2) = _lib (world f1) /\
  native_log (world f2) = native_log (world f1) ++ [call_opus_encoder_destroy PyNone].
Proof.
  split; [reflexivity |].
  split; [exact (proj1 (C3_teardown Demo.failed Demo.binding PyNone) eq_refl) |].
  split; [reflexivity |]. split; [reflexivity |].
  exact (proj2 (C3_teardown Demo.ready Demo.binding (Ptr 4096)) eq_refl eq_refl).
Defined.

(** The second teardown of the demo encoder reaches the library. *)
Lemma C3_counterexample :
  Closed Demo.closed /\
  let '(r, f2) := Encoder__del__ Demo.closed in
  native_log (world f2) =
    native_log (world Demo.closed) ++ [call_opus_encoder_destroy PyNone] /\
  native_log (world f2) <> native_log (world Demo.closed) /\
  destroy_calls (native_log (world f2)) = [Ptr 4096; PyNone].
Proof.
  split; [split; [exists Demo.binding |]; reflexivity |].
  vm_compute. split; [reflexivity |]. split; [discriminate | reflexivity].
Qed.

(** *** [encode] after teardown *)

(** C4 (amended). The code has no closed-state check: an encode on a Closed
    encoder calls [opus_encode] with [None] for the state, and the status the
    library returns decides the outcome as it does on a Ready encoder, a
    negative one raising [OpusError] and any other returning bytes; no other
    exception is raised. *)
Theorem C4_encode_after_close (f : Frame) (l : Lib) (pcm : bytes) (frame_size : Z) :
  _lib (world f) = Some l -> _state (self f) = Some PyNone ->
  let max_data_bytes := Z.of_nat (length pcm) in
  let call := call_opus_encode PyNone pcm frame_size max_data_bytes in
  let log := native_log (world f) in
  let '(ret, out) := opus_encode (dll l) log PyNone pcm frame_size max_data_bytes in
  let '(r, f') := Encoder_encode pcm frame_size f in
  ~ fails_otherwise r /\
  (exists rest, native_log (world f') = log ++ call :: rest) /\
  r = if ret <? 0
      then Raise (OpusError ret (opus_strerror (dll l) (log ++ [call]) ret))
      else Ok (take (Z.to_nat ret) (store out (replicate (length pcm) "000"%byte))).
Proof.
  intros Hl Hst. cbv zeta. rewrite (encode_cases f l PyNone pcm frame_size Hl Hst).
  cbv zeta. destruct (opus_encode _ _ _ _ _ _) as [ret out].
  destruct (ret <? 0); cbn.
  - split; [tauto |]. split; [| reflexivity].
    eexists. rewrite <- app_assoc. reflexivity.
  - split; [tauto |]. split; [| reflexivity]. eexists. reflexivity.
Qed.

Lemma C4_encode_after_close_witness :
  _lib (world Demo.closed) = Some Demo.binding /\
  _state (self Demo.closed) = Some PyNone /\
  let pcm := Demo.silence in
  let max_data_bytes := Z.of_nat (length pcm) in
  let call := call_opus_encode PyNone pcm 960 max_data_bytes in
  let log := native_log (world Demo.closed) in
  let '(ret, out) := opus_encode (dll Demo.binding) log PyNone pcm 960 max_data_bytes in
  let '(r, f') := Encoder_encode pcm 960 Demo.closed in
  ~ fails_otherwise r /\
  (exists rest, native_log (world f') = log ++ call :: rest) /\
  r = if ret <? 0
      then Raise (OpusError ret (opus_strerror (dll Demo.binding) (log ++ [call]) ret))
      else Ok (take (Z.to_nat ret) (store out (replicate (length pcm) "000"%byte))).
Proof.
  split; [reflexivity |]. split; [reflexivity |].
  exact (C4_encode_after_close Demo.closed Demo.binding Demo.silence 960 eq_refl eq_refl).
Defined.

(** After teardown the demo encoder still encodes: the call goes to the
    library, which rejects the missing state, and the failure is an
    [OpusError]. *)
Lemma C4_counterexample :
  Closed Demo.closed /\
  let '(r, f') := Encoder_encode Demo.silence 960 Demo.closed in
  r = Raise (OpusError (-1) "invalid argument") /\
  CodecError r /\
  ~ fails_otherwise r.
Proof.
  split; [split; [exists Demo.binding |]; reflexivity |].
  vm_compute. split; [reflexivity |]. split; [| tauto].
  eexists _, _. reflexivity.
Qed.

(** *** Construction without a library *)

(** C5 (amended). With no library bound a construction always fails, makes no
    native call, and leaves an object without [_state].  The frame geometry is
    computed before the check, so the exception is the one its arithmetic
    raises if it raises one, and [OpusNotLoaded] otherwise, in particular on
    every valid sampling rate. *)
Theorem C5_construct_not_loaded (w : World) (s c : Z) (application : option Z) :
  is_loaded w = false ->
  let '(r, f) := construct s c application w in
  world f = w /\
  filter is_create (native_log (world f)) = filter is_create (native_log w) /\
  never_Ready f /\
  r = match samples_in_frame s 20 with
      | Ok _ => Raise OpusNotLoaded
      | Raise e => Raise e
      end /\
  (valid_sampling_rate s -> r = Raise OpusNotLoaded).
Proof.
  intros Hw. unfold is_loaded in Hw. destruct (_lib w) as [l |] eqn:Hl; [discriminate |].
  pose proof (samples_in_frame_valid s) as Hvalid.
  rewrite construct_cases. cbv zeta. rewrite Hl.
  destruct (samples_in_frame s 20) as [n | e]; cbn.
  - repeat split; reflexivity.
  - repeat split; try reflexivity. intros Hs. specialize (Hvalid Hs). discriminate.
Qed.

Lemma C5_construct_not_loaded_witness :
  is_loaded Demo.unloaded = false /\
  let '(r, f) := construct 48000 2 None Demo.unloaded in
  world f = Demo.unloaded /\
  filter is_create (native_log (world f)) = filter is_create (native_log Demo.unloaded) /\
  never_Ready f /\
  r = match samples_in_frame 48000 20 with
      | Ok _ => Raise OpusNotLoaded
      | Raise e => Raise e
      end /\
  (valid_sampling_rate 48000 -> r = Raise OpusNotLoaded).
Proof.
  split; [reflexivity |].
  exact (C5_construct_not_loaded Demo.unloaded 48000 2 None eq_refl).
Defined.

(** A sampling rate whose quotient by 1000 is beyond the range of a double:
    line 162 raises before line 165 is reached. *)
Lemma C5_counterexample :
  is_loaded Demo.unloaded = false /\
  fst (construct (10 ^ 400) 2 None Demo.unloaded) = Raise OverflowError /\
  fst (construct (10 ^ 400) 2 None Demo.unloaded) <> Raise OpusNotLoaded.
Proof.
  split; [reflexivity |]. vm_compute. split; [reflexivity | discriminate].
Qed.

Example construct_unloaded :
  fst (construct 48000 2 None Demo.unloaded) = Raise OpusNotLoaded.
Proof. vm_compute. reflexivity. Qed.

(** *** Loading *)

Lemma getattr_symbol_Ok lib name :
  name ∈ exports lib -> getattr_symbol lib name = Ok tt.
Proof. intros H. unfold getattr_symbol. rewrite bool_decide_eq_true_2; [reflexivity | exact H]. Qed.

Lemma getattr_symbol_Raise lib name :
  name ∉ exports lib -> getattr_symbol lib name = Raise (AttributeError name).
Proof. intros H. unfold getattr_symbol. rewrite bool_decide_eq_false_2; [reflexivity | exact H]. Qed.

(** The loop stops at the first name the shared object does not export. *)
Lemma register_functions_missing lib items : forall acc sym,
  sym ∈ map (fun item => fst (fst item)) items -> sym ∉ exports lib ->
  exists sym', sym' ∈ map (fun item => fst (fst item)) items /\
               register_functions lib items acc = Raise (AttributeError sym').
Proof.
  induction items as [| item rest IH]; intros acc sym Hin Hmiss; cbn in *.
  - inversion Hin.
  - destruct (decide (fst (fst item) ∈ exports lib)) as [Hhere | Hhere].
    + rewrite (getattr_symbol_Ok _ _ Hhere).
      apply elem_of_cons in Hin as [-> | Hin]; [contradiction |].
      destruct (IH (acc ++ [item]) sym Hin Hmiss) as (sym' & Hin' & Heq).
      exists sym'. split; [right; exact Hin' | exact Heq].
    + rewrite (getattr_symbol_Raise _ _ Hhere).
      exists (fst (fst item)). split; [left | reflexivity].
Qed.

Lemma register_functions_complete lib items : forall acc,
  (forall sym, sym ∈ map (fun item => fst (fst item)) items -> sym ∈ exports lib) ->
  register_functions lib items acc = Ok (acc ++ items).
Proof.
  induction items as [| item rest IH]; intros acc Hall; cbn.
  - rewrite app_nil_r. reflexivity.
  - rewrite getattr_symbol_Ok by (apply Hall; left).
    rewrite IH by (intros sym Hsym; apply Hall; right; exact Hsym).
    rewrite <- app_assoc. reflexivity.
Qed.

(** A successful load binds the shared object with every prototype of the
    table registered. *)
Lemma load_opus_success env name lib w :
  LoadLibrary env (Some name) = Some lib ->
  (forall sym, sym ∈ required_symbols -> sym ∈ exports lib) ->
  load_opus env name w =
  (Ok tt, set_lib (Some {| dll := lib; prototypes := exported_functions |}) w).
Proof.
  intros Hopen Hall. unfold load_opus, libopus_loader. rewrite Hopen.
  rewrite (register_functions_complete lib exported_functions [] Hall).
  reflexivity.
Qed.

(** C6. When the named library cannot be opened, or lacks one of the required
    symbols, [load_opus] raises the loader's exception (with the name, or with a
    missing symbol) and the process is as it was: the binding, and so
    [is_loaded], are unchanged. *)
Theorem C6_load_failure (env : Env) (name : string) (w : World) :
  LoadLibrary env (Some name) = None \/
  (exists lib sym, LoadLibrary env (Some name) = Some lib /\
                   sym ∈ required_symbols /\ sym ∉ exports lib) ->
  exists e,
    load_opus env name w = (Raise e, w) /\
    LoadError name e /\
    _lib (snd (load_opus env name w)) = _lib w /\
    is_loaded (snd (load_opus env name w)) = is_loaded w.
Proof.
  intros [Hopen | (lib & sym & Hopen & Hreq & Hmiss)].
  - exists (OSError (Some name)).
    assert (Hrun : load_opus env name w = (Raise (OSError (Some name)), w)).
    { unfold load_opus, libopus_loader. rewrite Hopen. reflexivity. }
    rewrite Hrun. repeat split. left. reflexivity.
  - destruct (register_functions_missing lib exported_functions [] sym Hreq Hmiss)
      as (sym' & Hin' & Hreg).
    exists (AttributeError sym').
    assert (Hrun : load_opus env name w = (Raise (AttributeError sym'), w)).
    { unfold load_opus, libopus_loader. rewrite Hopen, Hreg. reflexivity. }
    rewrite Hrun. repeat split. right. exists sym'. split; [exact Hin' | reflexivity].
Qed.

Lemma C6_load_failure_witness :
  let name := "definitely-nonexistent-library-xyz" in
  (LoadLibrary Demo.env (Some name) = None \/
   (exists lib sym, LoadLibrary Demo.env (Some name) = Some lib /\
                    sym ∈ required_symbols /\ sym ∉ exports lib)) /\
  exists e,
    load_opus Demo.env name Demo.loaded = (Raise e, Demo.loaded) /\
    LoadError name e /\
    _lib (snd (load_opus Demo.env name Demo.loaded)) = _lib Demo.loaded /\
    is_loaded (snd (load_opus Demo.env name Demo.loaded)) = is_loaded Demo.loaded.
Proof.
  split; [left; reflexivity |].
  apply (C6_load_failure Demo.env "definitely-nonexistent-library-xyz" Demo.loaded).
  left. reflexivity.
Defined.

(** The three ways a load can go in the demo world. *)
Example load_missing_library :
  load_opus Demo.env "definitely-nonexistent-library-xyz" Demo.unloaded =
  (Raise (OSError (Some "definitely-nonexistent-library-xyz")), Demo.unloaded).
Proof. vm_compute. reflexivity. Qed.

Example load_missing_symbol :
  load_opus Demo.env "libopus-old.so" Demo.loaded =
  (Raise (AttributeError "opus_encoder_destroy"), Demo.loaded).
Proof. vm_compute. reflexivity. Qed.

Example load_libopus :
  is_loaded Demo.unloaded = false /\
  is_loaded (snd (load_opus Demo.env "libopus.so.0" Demo.unloaded)) = true.
Proof. vm_compute. auto. Qed.

(** *** Application constants *)

(** C9. The three application constants are 2049 (audio), 2048 (voip) and 2051
    (low delay), and a construction that leaves the application out is the
    construction with [APPLICATION_AUDIO]: it stores 2049 and hands 2049 to
    [opus_encoder_create]. *)
Theorem C9_application_constants :
  APPLICATION_AUDIO = 2049 /\
  APPLICATION_VOIP = 2048 /\
  APPLICATION_LOWDELAY = 2051 /\
  forall (w : World) (s c : Z),
    construct s c None w = construct s c (Some 2049) w /\
    application (self (snd (construct s c None w))) = Some 2049.
Proof.
  split; [reflexivity |]. split; [reflexivity |]. split; [reflexivity |].
  intros w s c. split; [reflexivity |].
  rewrite construct_cases. cbv zeta. cbn [default].
  change APPLICATION_AUDIO with 2049.
  destruct (samples_in_frame s 20) as [n | e]; [| reflexivity].
  destruct (_lib w) as [l |]; [| reflexivity].
  destruct (opus_encoder_create _ _ _ _ _) as [result ret].
  destruct (ret =? 0); reflexivity.
Qed.

Example construct_default_application :
  construct 48000 2 None Demo.loaded =
  (Ok tt,
   {| self := set_state (Ptr 4096) (with_geometry 48000 2 2049 960);
      world := {| _lib := Some Demo.binding;
                  native_log := [ call_opus_encoder_create 48000 2 2049 ] |} |}).
Proof. vm_compute. reflexivity. Qed.

End OpusSpec.

(** ** Properties of [context.py] *)

Module ContextSpec.
Import Context Driver.

(** *** [Context.__init__] *)

Lemma pop_default key d (attrs : gmap string PyVal) :
  pop key (Some d) attrs = (Ok (field_or d attrs key), delete key attrs).
Proof.
  unfold pop, field_or. destruct (attrs !! key) eqn:H; cbn; [reflexivity |].
  rewrite delete_id by exact H. reflexivity.
Qed.

(** Running the ten [pop]s: each reads its own key, whatever was popped before. *)
Lemma Context__init__cases (attrs : gmap string PyVal) :
  Context__init__ attrs =
  match attrs !! "prefix" with
  | None => Raise (KeyError "prefix")
  | Some p =>
      Ok {| message := field_or VNone attrs "message";
            bot := field_or VNone attrs "bot";
            args := field_or (VList []) attrs "args";
            kwargs := field_or (VDict []) attrs "kwargs";
            command := field_or VNone attrs "command";
            view := field_or VNone attrs "view";
            invoked_with := field_or VNone attrs "invoked_with";
            invoked_subcommand := field_or VNone attrs "invoked_subcommand";
            subcommand_passed := field_or VNone attrs "subcommand_passed";
            prefix := p |}
  end.
Proof.
  unfold Context__init__.
  cbv beta iota zeta delta [mbind mret M_bind M_ret bind ret].
  rewrite !pop_default. cbv beta iota.
  unfold pop at 1. rewrite !lookup_delete_ne by discriminate.
  destruct (attrs !! "prefix") as [p |] eqn:Hp; [| reflexivity].
  rewrite !pop_default. cbv beta iota. cbn [fst].
  unfold field_or. rewrite !lookup_delete_ne by discriminate. reflexivity.
Qed.

(** C10. A construction without [prefix] raises [KeyError]; with a prefix it
    succeeds, every other attribute taking its keyword or else its default
    ([None], the empty list for [args], the empty dict for [kwargs]); and a
    keyword that is not an attribute changes nothing. *)
Theorem C10_context_init (attrs : gmap string PyVal) :
  (attrs !! "prefix" = None -> Context__init__ attrs = Raise (KeyError "prefix")) /\
  (forall p, attrs !! "prefix" = Some p ->
     Context__init__ attrs =
     Ok {| message := field_or VNone attrs "message";
           bot := field_or VNone attrs "bot";
           args := field_or (VList []) attrs "args";
           kwargs := field_or (VDict []) attrs "kwargs";
           command := field_or VNone attrs "command";
           view := field_or VNone attrs "view";
           invoked_with := field_or VNone attrs "invoked_with";
           invoked_subcommand := field_or VNone attrs "invoked_subcommand";
           subcommand_passed := field_or VNone attrs "subcommand_passed";
           prefix := p |}) /\
  (forall key v, key ∉ slots ->
     Context__init__ (<[key := v]> attrs) = Context__init__ attrs).
Proof.
  split; [| split].
  - intros H. rewrite Context__init__cases, H. reflexivity.
  - intros p H. rewrite Context__init__cases, H. reflexivity.
  - intros key v Hkey. rewrite !Context__init__cases. unfold field_or.
    assert (Hne : forall k, k ∈ slots -> (<[key := v]> attrs) !! k = attrs !! k).
    { intros k Hk. apply lookup_insert_ne. intros ->. contradiction. }
    rewrite !Hne by (unfold slots; set_solver). reflexivity.
Qed.

Lemma C10_context_init_witness :
  let bare := Demo.bare in
  let full := Demo.full in
  bare !! "prefix" = None /\
  Context__init__ bare = Raise (KeyError "prefix") /\
  full !! "prefix" = Some (VStr "!") /\
  Context__init__ full =
    Ok {| message := VRef 1; bot := VNone; args := VList []; kwargs := VDict [];
          command := VNone; view := VNone; invoked_with := VNone;
          invoked_subcommand := VNone; subcommand_passed := VNone;
          prefix := VStr "!" |} /\
  ("colour" ∉ slots) /\
  Context__init__ (<[ "colour" := VInt 8 ]> full) = Context__init__ full.
Proof.
  intros bare full.
  split; [reflexivity |].
  split; [exact (proj1 (C10_context_init bare) eq_refl) |].
  split; [reflexivity |].
  split; [exact (proj1 (proj2 (C10_context_init full)) (VStr "!") eq_refl) |].
  assert (Hkey : "colour" ∉ slots)
    by (unfold slots; rewrite !not_elem_of_cons; repeat split;
        try discriminate; apply not_elem_of_nil).
  split; [exact Hkey |].
  exact (proj2 (proj2 (C10_context_init full)) "colour" (VInt 8) Hkey).
Defined.

(** *** [Context.invoke] *)

Lemma no_kwargs (kwargs : gmap string PyVal) :
  (Z.of_nat (size kwargs) =? 0) = bool_decide (kwargs = ∅).
Proof.
  destruct (decide (kwargs = ∅)) as [-> | Hne].
  - rewrite map_size_empty, bool_decide_eq_true_2 by reflexivity. reflexivity.
  - rewrite bool_decide_eq_false_2 by exact Hne.
    apply Z.eqb_neq. intros H. apply Hne, map_size_empty_iff. lia.
Qed.

(** What the caller of a coroutine that ends in [yield from g] sees. *)
Lemma drive_yield_from g : forall sent,
  drive (yield_from g (fun _ => Return VNone)) sent =
  let '(ys, o) := drive g sent in
  (ys, match o with Returned _ => Returned VNone | _ => o end).
Proof.
  induction g as [v | e | v resume IH]; intros sent; cbn; [reflexivity .. |].
  destruct sent as [| x rest]; [reflexivity |].
  rewrite IH. destruct (drive (resume x) rest) as [ys o]. reflexivity.
Qed.

(** C8. [invoke] has two modes and no other.  Without keyword arguments it
    runs [command.invoke(self)], the entry point of the command on the context
    itself: driven with any values it yields what that coroutine yields, value
    for value, stops where it stops and raises what it raises.  With any
    keyword argument it runs [command.callback] on the keyword arguments
    instead, in the same way, and the context does not figure in what it does.
    In both modes it returns [None] once the coroutine it runs has returned. *)
Theorem C8_invoke_dispatch (self : Context) (command : Command)
    (kwargs : gmap string PyVal) (sent : list PyVal) :
  (kwargs = ∅ ->
   drive (Context_invoke self command kwargs) sent =
   let '(ys, o) := drive (invoke command self) sent in
   (ys, match o with Returned _ => Returned VNone | _ => o end)) /\
  (kwargs <> ∅ ->
   drive (Context_invoke self command kwargs) sent =
   (let '(ys, o) := drive (callback command kwargs) sent in
    (ys, match o with Returned _ => Returned VNone | _ => o end)) /\
   forall other : Context,
     drive (Context_invoke other command kwargs) sent =
     drive (Context_invoke self command kwargs) sent).
Proof.
  unfold Context_invoke. rewrite no_kwargs. split; intros H.
  - rewrite bool_decide_eq_true_2 by exact H. apply drive_yield_from.
  - rewrite bool_decide_eq_false_2 by exact H. split; [| reflexivity].
    apply drive_yield_from.
Qed.

Lemma C8_invoke_dispatch_witness :
  let sent := [ VInt 5 ] in
  (∅ : gmap string PyVal) = ∅ /\
  drive (Context_invoke Demo.ctx Demo.echo ∅) sent =
    (let '(ys, o) := drive (invoke Demo.echo Demo.ctx) sent in
     (ys, match o with Returned _ => Returned VNone | _ => o end)) /\
  Demo.name_kwargs <> ∅ /\
  drive (Context_invoke Demo.ctx Demo.echo Demo.name_kwargs) sent =
    (let '(ys, o) := drive (callback Demo.echo Demo.name_kwargs) sent in
     (ys, match o with Returned _ => Returned VNone | _ => o end)) /\
  forall other : Context,
    drive (Context_invoke other Demo.echo Demo.name_kwargs) sent =
    drive (Context_invoke Demo.ctx Demo.echo Demo.name_kwargs) sent.
Proof.
  assert (Hne : Demo.name_kwargs <> ∅).
  { intros H. apply (f_equal (fun m : gmap string PyVal => m !! "name")) in H.
    discriminate H. }
  cbv zeta. split; [reflexivity |].
  split; [exact (proj1 (C8_invoke_dispatch Demo.ctx Demo.echo ∅ [ VInt 5 ]) eq_refl) |].
  split; [exact Hne |].
  exact (proj2 (C8_invoke_dispatch Demo.ctx Demo.echo Demo.name_kwargs [ VInt 5 ]) Hne).
Defined.

(** Driven with one value, the first mode runs the entry point, which yields
    the prefix of the context it was given, and the second runs the callback,
    which yields the keyword argument; either way the value the command
    returns is dropped. *)
Example invoke_driven :
  drive (invoke Demo.echo Demo.ctx) [ VInt 5 ] = ([ VStr "!" ], Returned (VStr "done")) /\
  drive (Context_invoke Demo.ctx Demo.echo ∅) [ VInt 5 ] = ([ VStr "!" ], Returned VNone) /\
  drive (Context_invoke Demo.other_ctx Demo.echo ∅) [ VInt 5 ] =
    ([ VStr "?" ], Returned VNone) /\
  drive (callback Demo.echo Demo.name_kwargs) [ VInt 5 ] =
    ([ VStr "opus" ], Returned (VInt 5)) /\
  drive (Context_invoke Demo.ctx Demo.echo Demo.name_kwargs) [ VInt 5 ] =
    ([ VStr "opus" ], Returned VNone) /\
  drive (Context_invoke Demo.ctx Demo.echo Demo.name_kwargs) [] =
    ([ VStr "opus" ], Suspended).
Proof. repeat split. Qed.

(** Driven, the first mode yields the prefix of the context and the second
    the keyword argument, whichever context it is called on. *)
Example invoke_no_kwargs :
  Context_invoke Demo.ctx Demo.echo ∅ = Yield (VStr "!") (fun _ => Return VNone) /\
  Context_invoke Demo.other_ctx Demo.echo ∅ = Yield (VStr "?") (fun _ => Return VNone).
Proof. split; reflexivity. Qed.

Example invoke_kwargs :
  Context_invoke Demo.ctx Demo.echo Demo.name_kwargs =
    Yield (VStr "opus") (fun _ => Return VNone) /\
  Context_invoke Demo.other_ctx Demo.echo Demo.name_kwargs =
    Yield (VStr "opus") (fun _ => Return VNone).
Proof. split; reflexivity. Qed.

End ContextSpec.

(** ** Further properties of [opus.py] *)

Module OpusMore.
Import Opus OpusSpec Lifecycle.

(** *** Loading *)

Lemma register_functions_first_missing lib items : forall acc,
  register_functions lib items acc =
  match first_missing lib (map (fun item => fst (fst item)) items) with
  | Some sym => Raise (AttributeError sym)
  | None => Ok (acc ++ items)
  end.
Proof.
  induction items as [| item rest IH]; intros acc; cbn.
  - rewrite app_nil_r. reflexivity.
  - unfold getattr_symbol. destruct (bool_decide _); [| reflexivity].
    rewrite IH. destruct (first_missing _ _); [reflexivity |].
    rewrite <- app_assoc. reflexivity.
Qed.

Lemma first_missing_Some lib names sym :
  first_missing lib names = Some sym <->
  exists before after,
    names = before ++ sym :: after /\ (sym ∉ exports lib) /\
    forall s, s ∈ before -> s ∈ exports lib.
Proof.
  induction names as [| name rest IH]; cbn.
  - split; [discriminate |]. intros (before & after & H & _).
    destruct before; discriminate.
  - destruct (decide (name ∈ exports lib)) as [Hin | Hout].
    + rewrite bool_decide_eq_true_2 by exact Hin. rewrite IH. split.
      * intros (before & after & -> & Hmiss & Hall).
        exists (name :: before), after. split; [reflexivity |]. split; [exact Hmiss |].
        intros s Hs. apply elem_of_cons in Hs as [-> | Hs]; auto.
      * intros (before & after & Heq & Hmiss & Hall).
        destruct before as [| b before]; cbn in Heq.
        -- injection Heq as -> _. contradiction.
        -- injection Heq as -> ->. exists before, after.
           split; [reflexivity |]. split; [exact Hmiss |].
           intros s Hs. apply Hall. right. exact Hs.
    + rewrite bool_decide_eq_false_2 by exact Hout. split.
      * intros [= <-]. exists [], rest. split; [reflexivity |]. split; [exact Hout |].
        intros s Hs. inversion Hs.
      * intros (before & after & Heq & Hmiss & Hall).
        destruct before as [| b before]; cbn in Heq.
        -- injection Heq as -> _. reflexivity.
        -- injection Heq as -> _. exfalso. apply Hout, Hall. left.
Qed.

Lemma first_missing_None lib names :
  first_missing lib names = None <-> forall s, s ∈ names -> s ∈ exports lib.
Proof.
  induction names as [| name rest IH]; cbn.
  - split; [intros _ s Hs; inversion Hs | reflexivity].
  - destruct (decide (name ∈ exports lib)) as [Hin | Hout].
    + rewrite bool_decide_eq_true_2 by exact Hin. rewrite IH. split.
      * intros Hall s Hs. apply elem_of_cons in Hs as [-> | Hs]; auto.
      * intros Hall s Hs. apply Hall. right. exact Hs.
    + rewrite bool_decide_eq_false_2 by exact Hout. split; [discriminate |].
      intros Hall. exfalso. apply Hout, Hall. left.
Qed.

(** What [load_opus] does, by what the name opens and what that exports. *)
Lemma load_opus_cases env name w :
  load_opus env name w =
  match LoadLibrary env (Some name) with
  | None => (Raise (OSError (Some name)), w)
  | Some lib =>
      match first_missing lib required_symbols with
      | Some sym => (Raise (AttributeError sym), w)
      | None => (Ok tt, set_lib (Some {| dll := lib; prototypes := exported_functions |}) w)
      end
  end.
Proof.
  unfold load_opus, libopus_loader. run_py.
  destruct (LoadLibrary env (Some name)) as [lib |]; [| reflexivity].
  rewrite register_functions_first_missing. fold required_symbols.
  destruct (first_missing lib required_symbols); reflexivity.
Qed.

(** X1. The loader reports the first symbol of the table, in the order of the
    table, that the shared object lacks: when a load raises [AttributeError]
    on [sym], every function listed before [sym] is exported and [sym] is
    not. *)
Theorem load_reports_first_missing_symbol (env : Env) (name sym : string)
    (lib : CDLL) (w w' : World) :
  LoadLibrary env (Some name) = Some lib ->
  load_opus env name w = (Raise (AttributeError sym), w') ->
  exists before after,
    required_symbols = before ++ sym :: after /\
    (sym ∉ exports lib) /\
    forall s, s ∈ before -> s ∈ exports lib.
Proof.
  intros Hopen Hload. rewrite load_opus_cases, Hopen in Hload.
  destruct (first_missing lib required_symbols) as [sym' |] eqn:Hfirst; [| discriminate].
  injection Hload as -> _. apply first_missing_Some. exact Hfirst.
Qed.

Lemma load_reports_first_missing_symbol_witness :
  LoadLibrary Demo.env (Some "libopus-old.so") = Some Demo.libopus_partial /\
  load_opus Demo.env "libopus-old.so" Demo.loaded =
    (Raise (AttributeError "opus_encoder_destroy"), Demo.loaded) /\
  exists before after,
    required_symbols = before ++ "opus_encoder_destroy" :: after /\
    ("opus_encoder_destroy" ∉ exports Demo.libopus_partial) /\
    forall s, s ∈ before -> s ∈ exports Demo.libopus_partial.
Proof.
  split; [reflexivity |]. split; [reflexivity |].
  exact (load_reports_first_missing_symbol Demo.env "libopus-old.so"
           "opus_encoder_destroy" Demo.libopus_partial Demo.loaded Demo.loaded
           eq_refl eq_refl).
Defined.

(** X2. A load succeeds exactly when the name opens and the shared object
    exports all five functions of the table.  It then replaces the binding,
    whatever it was, by that object with the five prototypes registered; it
    makes no native call either way, and a load that raises leaves the
    process as it was. *)
Theorem load_binds_iff_complete (env : Env) (name : string) (w : World) :
  let complete lib :=
    LoadLibrary env (Some name) = Some lib /\
    forall s, s ∈ required_symbols -> s ∈ exports lib in
  let '(r, w') := load_opus env name w in
  (r = Ok tt <-> exists lib, complete lib) /\
  (forall lib, complete lib ->
     w' = {| _lib := Some {| dll := lib; prototypes := exported_functions |};
             native_log := native_log w |}) /\
  ((forall lib, ~ complete lib) -> w' = w) /\
  native_log w' = native_log w.
Proof.
  cbv zeta. rewrite load_opus_cases.
  destruct (LoadLibrary env (Some name)) as [lib |] eqn:Hopen.
  - destruct (first_missing lib required_symbols) as [sym |] eqn:Hfirst.
    + assert (Hno : forall lib', ~ (Some lib = Some lib' /\
                 forall s, s ∈ required_symbols -> s ∈ exports lib')).
      { intros lib' [[= <-] Hall].
        pose proof (proj2 (first_missing_None _ _) Hall). congruence. }
      split; [split; [discriminate | intros [lib' H]; destruct (Hno lib' H)] |].
      split; [intros lib' H; destruct (Hno lib' H) |]. split; reflexivity.
    + pose proof (proj1 (first_missing_None _ _) Hfirst) as Hall.
      split; [split; [intros _; exists lib; auto | reflexivity] |].
      split; [intros lib' [[= <-] _]; reflexivity |].
      split; [| reflexivity]. intros Hno. destruct (Hno lib). auto.
  - split; [split; [discriminate | intros [lib' [H _]]; discriminate] |].
    split; [intros lib' [H _]; discriminate |]. split; reflexivity.
Qed.

Lemma load_binds_iff_complete_witness :
  let complete lib :=
    LoadLibrary Demo.env (Some "libopus.so.0") = Some lib /\
    forall s, s ∈ required_symbols -> s ∈ exports lib in
  complete Demo.libopus /\
  load_opus Demo.env "libopus.so.0" Demo.unloaded = (Ok tt, Demo.loaded).
Proof.
  cbv zeta.
  assert (Hc : LoadLibrary Demo.env (Some "libopus.so.0") = Some Demo.libopus /\
               forall s, s ∈ required_symbols -> s ∈ exports Demo.libopus).
  { split; [reflexivity |]. apply first_missing_None. reflexivity. }
  split; [exact Hc |].
  pose proof (load_binds_iff_complete Demo.env "libopus.so.0" Demo.unloaded) as H.
  cbv zeta in H.
  destruct (load_opus Demo.env "libopus.so.0" Demo.unloaded) as [r w'].
  destruct H as (Hr & Hw & _ & _).
  rewrite (Hw Demo.libopus Hc).
  rewrite (proj2 Hr (ex_intro _ Demo.libopus Hc)). reflexivity.
Defined.

Lemma module_init_log env w : native_log (snd (module_init env w)) = native_log w.
Proof.
  unfold module_init, try_except, libopus_loader. run_py.
  destruct (LoadLibrary env (find_library env "opus")) as [lib |]; [| reflexivity].
  destruct (register_functions lib exported_functions []); reflexivity.
Qed.

(** X3. The import never raises and makes no native call: it binds the
    library [find_library] names if that opens with all five functions, and
    otherwise leaves [_lib] at [None]. *)
Theorem import_is_silent (env : Env) (w : World) :
  let '(r, w') := module_init env w in
  r = Ok tt /\
  native_log w' = native_log w /\
  _lib w' =
    match LoadLibrary env (find_library env "opus") with
    | Some lib =>
        match first_missing lib required_symbols with
        | None => Some {| dll := lib; prototypes := exported_functions |}
        | Some _ => None
        end
    | None => None
    end.
Proof.
  unfold module_init, try_except, libopus_loader. run_py.
  destruct (LoadLibrary env (find_library env "opus")) as [lib |]; [| auto].
  rewrite register_functions_first_missing. fold required_symbols.
  destruct (first_missing lib required_symbols); auto.
Qed.

(** *** Construction *)

(** X4. With a library bound and the geometry computed, the constructor makes
    one call, [opus_encoder_create] on the sampling rate, the channel count and
    the application.  If the library stores 0 the constructor returns and the
    encoder is Ready on the returned pointer; if it stores anything else the
    constructor raises [OpusError] with that code and the library's message
    for it, and the object has no [_state]. *)
Theorem construction_outcome (w : World) (l : Lib) (s c n : Z)
    (application : option Z) :
  _lib w = Some l ->
  samples_in_frame s 20 = Ok n ->
  let app := default APPLICATION_AUDIO application in
  let create := call_opus_encoder_create s c app in
  let '(result, ret) := opus_encoder_create (dll l) (native_log w) s c app in
  let '(r, f) := construct s c application w in
  _lib (world f) = Some l /\
  if ret =? 0
  then r = Ok tt /\ Ready f /\ _state (self f) = Some (Ptr result) /\
       native_log (world f) = native_log w ++ [create]
  else r = Raise (OpusError ret (opus_strerror (dll l) (native_log w ++ [create]) ret)) /\
       never_Ready f /\
       native_log (world f) = native_log w ++ [create; call_opus_strerror ret].
Proof.
  intros Hl Hn. cbv zeta. rewrite construct_cases. cbv zeta. rewrite Hn, Hl.
  destruct (opus_encoder_create _ _ _ _ _) as [result ret].
  destruct (ret =? 0); cbn.
  - split; [exact Hl |]. split; [reflexivity |].
    split; [split; cbn; [rewrite Hl |]; eauto |]. split; reflexivity.
  - split; [exact Hl |]. split; [reflexivity |]. split; [reflexivity |].
    rewrite <- app_assoc. reflexivity.
Qed.

Lemma construction_outcome_witness :
  _lib Demo.loaded = Some Demo.binding /\
  samples_in_frame 44100 20 = Ok 882 /\
  let w := Demo.loaded in
  let l := Demo.binding in
  let create := call_opus_encoder_create 44100 2 2049 in
  let '(result, ret) := opus_encoder_create (dll l) (native_log w) 44100 2 2049 in
  let '(r, f) := construct 44100 2 None w in
  _lib (world f) = Some l /\
  if ret =? 0
  then r = Ok tt /\ Ready f /\ _state (self f) = Some (Ptr result) /\
       native_log (world f) = native_log w ++ [create]
  else r = Raise (OpusError ret (opus_strerror (dll l) (native_log w ++ [create]) ret)) /\
       never_Ready f /\
       native_log (world f) = native_log w ++ [create; call_opus_strerror ret].
Proof.
  assert (Hn : samples_in_frame 44100 20 = Ok 882) by (vm_compute; reflexivity).
  split; [reflexivity |]. split; [exact Hn |].
  exact (construction_outcome Demo.loaded Demo.binding 44100 2 882 None eq_refl Hn).
Defined.

(** A rate libopus refuses: the constructor raises with [OPUS_BAD_ARG]. *)
Example construct_44100 :
  fst (construct 44100 2 None Demo.loaded) = Raise (OpusError (-1) "invalid argument").
Proof. vm_compute. reflexivity. Qed.

(** X5. Whatever the arguments and the process, the object the constructor
    leaves records the sampling rate, the channel count and the application it
    was given, a frame length of 20 and a sample size of twice the channels; the
    frame size is there exactly when the samples per frame are, and is their
    product with the sample size. *)
Theorem geometry_recorded (w : World) (s c : Z) (application : option Z) :
  let '(r, f) := construct s c application w in
  let e := self f in
  sampling_rate e = Some s /\
  channels e = Some c /\
  Opus.application e = Some (default APPLICATION_AUDIO application) /\
  frame_length e = Some 20 /\
  sample_size e = Some (2 * c) /\
  match samples_in_frame s 20 with
  | Ok n => samples_per_frame e = Some n /\ frame_size e = Some (n * (2 * c))
  | Raise exc =>
      samples_per_frame e = None /\ frame_size e = None /\ _state e = None /\
      r = Raise exc /\ world f = w
  end.
Proof.
  rewrite construct_cases. cbv zeta.
  destruct (samples_in_frame s 20) as [n | exc]; [| cbn; repeat split].
  destruct (_lib w) as [l |]; [| cbn; repeat split].
  destruct (opus_encoder_create _ _ _ _ _) as [result ret].
  destruct (ret =? 0); cbn; repeat split.
Qed.

(** *** Teardown *)

Lemma del_without_lib f st :
  _lib (world f) = None -> _state (self f) = Some st ->
  Encoder__del__ f = (Raise (AttributeError "opus_encoder_destroy"), f).
Proof.
  destruct f as [[sr ch app fl ss spf fs st0] [lib tr]]. cbn.
  intros -> ->. reflexivity.
Qed.

(** X6. A teardown right after a construction never raises.  After a
    construction that returned it destroys the pointer that
    [opus_encoder_create] gave, once, and leaves the encoder Closed; after one
    that raised it does nothing at all. *)
Theorem teardown_after_construction (w : World) (s c : Z) (application : option Z) :
  let '(r, f) := construct s c application w in
  let '(r', f') := Encoder__del__ f in
  r' = Ok tt /\
  match r with
  | Ok _ =>
      exists p, _state (self f) = Some (Ptr p) /\
                native_log (world f') =
                  native_log (world f) ++ [call_opus_encoder_destroy (Ptr p)] /\
                Closed f'
  | Raise _ => f' = f
  end.
Proof.
  destruct (construct s c application w) as [r f] eqn:Hc.
  destruct r as [[] | exc].
  - destruct (Ready_inv f (construct_Ok_Ready _ _ _ _ _ Hc)) as (l & p & Hl & Hst).
    rewrite (del_with_state f l (Ptr p) Hl Hst). split; [reflexivity |].
    exists p. split; [exact Hst |]. split; [reflexivity |].
    split; cbn; [rewrite Hl; eauto | reflexivity].
  - rewrite (del_without_state f (construct_Raise_never_Ready _ _ _ _ _ _ Hc)).
    split; reflexivity.
Qed.

Lemma teardowns_closed n : forall f l,
  _lib (world f) = Some l -> _state (self f) = Some PyNone ->
  self (teardowns n f) = self f /\
  _lib (world (teardowns n f)) = Some l /\
  native_log (world (teardowns n f)) =
    native_log (world f) ++ replicate n (call_opus_encoder_destroy PyNone).
Proof.
  induction n as [| n IH]; intros f l Hl Hst; cbn [teardowns replicate].
  - rewrite app_nil_r. auto.
  - rewrite (del_with_state f l PyNone Hl Hst). cbn [snd].
    destruct (IH {| self := set_state PyNone (self f);
                    world := log_call (call_opus_encoder_destroy PyNone) (world f) |} l)
      as (Hs & Hlib & Hlog); [exact Hl | reflexivity |].
    rewrite Hs, Hlib, Hlog. cbn. rewrite <- app_assoc.
    split; [| split; reflexivity].
    destruct f as [[sr ch app fl ss spf fs st0] w0]. cbn in *. subst st0. reflexivity.
Qed.

(** X7. However many times [__del__] runs on an encoder that has a state, the
    state is handed to [opus_encoder_destroy] exactly once, by the first run;
    every later run hands over [None], and none of them raises or changes
    anything but [_state]. *)
Theorem state_destroyed_once (f : Frame) (l : Lib) (st : PyHandle) (n : nat) :
  _lib (world f) = Some l -> _state (self f) = Some st ->
  let f' := teardowns (S n) f in
  self f' = set_state PyNone (self f) /\
  _lib (world f') = Some l /\
  native_log (world f') =
    native_log (world f) ++
    call_opus_encoder_destroy st :: replicate n (call_opus_encoder_destroy PyNone) /\
  fst (Encoder__del__ f') = Ok tt.
Proof.
  intros Hl Hst. cbv zeta. cbn [teardowns].
  rewrite (del_with_state f l st Hl Hst). cbn [snd].
  destruct (teardowns_closed n
              {| self := set_state PyNone (self f);
                 world := log_call (call_opus_encoder_destroy st) (world f) |} l)
    as (Hs & Hlib & Hlog); [exact Hl | reflexivity |].
  rewrite Hs, Hlib, Hlog. cbn. rewrite <- app_assoc.
  split; [reflexivity |]. split; [reflexivity |]. split; [reflexivity |].
  rewrite (del_with_state _ l PyNone); [reflexivity | exact Hlib |].
  rewrite Hs. reflexivity.
Qed.

Lemma state_destroyed_once_witness :
  _lib (world Demo.ready) = Some Demo.binding /\
  _state (self Demo.ready) = Some (Ptr 4096) /\
  let f' := teardowns 3 Demo.ready in
  self f' = set_state PyNone (self Demo.ready) /\
  _lib (world f') = Some Demo.binding /\
  native_log (world f') =
    native_log (world Demo.ready) ++
    call_opus_encoder_destroy (Ptr 4096) :: replicate 2 (call_opus_encoder_destroy PyNone) /\
  fst (Encoder__del__ f') = Ok tt.
Proof.
  split; [reflexivity |]. split; [reflexivity |].
  exact (state_destroyed_once Demo.ready Demo.binding (Ptr 4096) 2 eq_refl eq_refl).
Defined.

(** *** [encode] in every state *)

Lemma encode_without_lib f pcm frame_size :
  _lib (world f) = None ->
  Encoder_encode pcm frame_size f = (Raise (AttributeError "opus_encode"), f).
Proof.
  destruct f as [[sr ch app fl ss spf fs st0] [lib tr]]. cbn. intros ->. reflexivity.
Qed.

Lemma encode_without_state f l pcm frame_size :
  _lib (world f) = Some l -> _state (self f) = None ->
  Encoder_encode pcm frame_size f = (Raise (AttributeError "_state"), f).
Proof.
  destruct f as [[sr ch app fl ss spf fs st0] [lib tr]]. cbn. intros -> ->. reflexivity.
Qed.

Lemma encode_frame f pcm frame_size :
  let f' := snd (Encoder_encode pcm frame_size f) in
  self f' = self f /\
  _lib (world f') = _lib (world f) /\
  exists added,
    native_log (world f') = native_log (world f) ++ added /\
    (_lib (world f) = None -> added = []).
Proof.
  cbv zeta. destruct (_lib (world f)) as [l |] eqn:Hl.
  - destruct (_state (self f)) as [st |] eqn:Hst.
    + rewrite (encode_cases f l st pcm frame_size Hl Hst). cbv zeta.
      destruct (opus_encode _ _ _ _ _ _) as [ret out].
      destruct (ret <? 0); cbn; (split; [reflexivity |]); (split; [exact Hl |]);
        eexists; rewrite <- ?app_assoc; (split; [reflexivity | discriminate]).
    + rewrite (encode_without_state f l pcm frame_size Hl Hst). cbn.
      split; [reflexivity |]. split; [exact Hl |].
      exists []. rewrite app_nil_r. auto.
  - rewrite (encode_without_lib f pcm frame_size Hl). cbn.
    split; [reflexivity |]. split; [exact Hl |].
    exists []. rewrite app_nil_r. auto.
Qed.

(** X8. An encode never assigns an attribute of the encoder and never
    rebinds the library, in whatever state it is called and whether it returns
    or raises; it only adds to the native log, at most the [opus_encode] call
    and, after it, one [opus_strerror] call. *)
Theorem encode_changes_only_the_log (f : Frame) (pcm : bytes) (frame_size : Z) :
  let '(r, f') := Encoder_encode pcm frame_size f in
  self f' = self f /\
  _lib (world f') = _lib (world f) /\
  exists added,
    native_log (world f') = native_log (world f) ++ added /\
    (added = [] \/
     exists st,
       _state (self f) = Some st /\
       let call := call_opus_encode st pcm frame_size (Z.of_nat (length pcm)) in
       added = [call] \/ exists code, added = [call; call_opus_strerror code]).
Proof.
  destruct (_lib (world f)) as [l |] eqn:Hl.
  - destruct (_state (self f)) as [st |] eqn:Hst.
    + rewrite (encode_cases f l st pcm frame_size Hl Hst). cbv zeta.
      destruct (opus_encode _ _ _ _ _ _) as [ret out].
      destruct (ret <? 0); cbn; (split; [reflexivity |]); (split; [exact Hl |]).
      * eexists. rewrite <- app_assoc. split; [reflexivity |].
        right. exists st. split; [reflexivity |]. right. exists ret. reflexivity.
      * eexists. split; [reflexivity |].
        right. exists st. split; [reflexivity |]. left. reflexivity.
    + rewrite (encode_without_state f l pcm frame_size Hl Hst).
      split; [reflexivity |]. split; [exact Hl |].
      exists []. rewrite app_nil_r. auto.
  - rewrite (encode_without_lib f pcm frame_size Hl).
    split; [reflexivity |]. split; [exact Hl |].
    exists []. rewrite app_nil_r. auto.
Qed.

(** X9. An encode on an object whose constructor raised, which has no
    [_state], raises [AttributeError] before anything is handed to the library:
    no native call is made and nothing changes. *)
Theorem encode_on_failed_construction (w : World) (s c : Z) (application : option Z)
    (exc : PyExc) (f : Frame) (pcm : bytes) (frame_size : Z) :
  construct s c application w = (Raise exc, f) ->
  exists attr, Encoder_encode pcm frame_size f = (Raise (AttributeError attr), f).
Proof.
  intros Hc. pose proof (construct_Raise_never_Ready _ _ _ _ _ _ Hc) as Hst.
  destruct (_lib (world f)) as [l |] eqn:Hl.
  - exists "_state". apply (encode_without_state f l); assumption.
  - exists "opus_encode". apply encode_without_lib. exact Hl.
Qed.

Lemma encode_on_failed_construction_witness :
  construct 44100 2 None Demo.loaded =
    (Raise (OpusError (-1) "invalid argument"), snd (construct 44100 2 None Demo.loaded)) /\
  exists attr,
    Encoder_encode Demo.silence 960 (snd (construct 44100 2 None Demo.loaded)) =
    (Raise (AttributeError attr), snd (construct 44100 2 None Demo.loaded)).
Proof.
  assert (Hc : construct 44100 2 None Demo.loaded =
               (Raise (OpusError (-1) "invalid argument"),
                snd (construct 44100 2 None Demo.loaded)))
    by (vm_compute; reflexivity).
  split; [exact Hc |].
  exact (encode_on_failed_construction Demo.loaded 44100 2 None _ _ Demo.silence 960 Hc).
Defined.

(** X10. Whenever an encode returns, in any state and whatever the library
    answered, the bytes returned are as many as the status says, capped at the
    length of [pcm]; in particular an encode of no input returns no bytes. *)
Theorem encode_output_length (f : Frame) (l : Lib) (st : PyHandle) (pcm out : bytes)
    (frame_size : Z) (f' : Frame) :
  _lib (world f) = Some l -> _state (self f) = Some st ->
  Encoder_encode pcm frame_size f = (Ok out, f') ->
  let ret := fst (opus_encode (dll l) (native_log (world f)) st pcm frame_size
                    (Z.of_nat (length pcm))) in
  0 <= ret /\
  length out = Nat.min (Z.to_nat ret) (length pcm) /\
  (pcm = [] -> out = []).
Proof.
  intros Hl Hst Henc. rewrite (encode_cases f l st pcm frame_size Hl Hst) in Henc.
  cbv zeta in *. destruct (opus_encode _ _ _ _ _ _) as [ret data]. cbn [fst].
  destruct (ret <? 0) eqn:Hneg; [discriminate |]. injection Henc as <- _.
  apply Z.ltb_ge in Hneg.
  assert (Hlen : length (take (Z.to_nat ret)
                           (store data (replicate (length pcm) "000"%byte))) =
                 Nat.min (Z.to_nat ret) (length pcm)).
  { rewrite length_take, store_length, length_replicate. reflexivity. }
  split; [exact Hneg |]. split; [exact Hlen |].
  intros ->. cbn [length] in Hlen. rewrite Nat.min_0_r in Hlen.
  apply nil_length_inv. exact Hlen.
Qed.

Lemma encode_output_length_witness :
  _lib (world Demo.ready) = Some Demo.binding /\
  _state (self Demo.ready) = Some (Ptr 4096) /\
  Encoder_encode Demo.silence 960 Demo.ready =
    (Ok [ "248"%byte; "255"%byte; "254"%byte ],
     snd (Encoder_encode Demo.silence 960 Demo.ready)) /\
  let ret := fst (opus_encode (dll Demo.binding) (native_log (world Demo.ready))
                    (Ptr 4096) Demo.silence 960 (Z.of_nat (length Demo.silence))) in
  0 <= ret /\
  length [ "248"%byte; "255"%byte; "254"%byte ] =
    Nat.min (Z.to_nat ret) (length Demo.silence) /\
  (Demo.silence = [] -> [ "248"%byte; "255"%byte; "254"%byte ] = []).
Proof.
  assert (He : Encoder_encode Demo.silence 960 Demo.ready =
               (Ok [ "248"%byte; "255"%byte; "254"%byte ],
                snd (Encoder_encode Demo.silence 960 Demo.ready)))
    by (vm_compute; reflexivity).
  split; [reflexivity |]. split; [reflexivity |]. split; [exact He |].
  exact (encode_output_length Demo.ready Demo.binding (Ptr 4096) Demo.silence _ 960 _
           eq_refl eq_refl He).
Defined.

(** X11. The library an encode calls is the one bound when it runs, not the
    one the encoder was created by: after a load that succeeds, an encode on
    an encoder made before it goes to the new shared object, with the old
    pointer. *)
Theorem encode_uses_current_binding (env : Env) (name : string) (lib : CDLL)
    (f : Frame) (st : PyHandle) (pcm : bytes) (frame_size : Z) :
  LoadLibrary env (Some name) = Some lib ->
  (forall s, s ∈ required_symbols -> s ∈ exports lib) ->
  _state (self f) = Some st ->
  let f1 := {| self := self f; world := snd (load_opus env name (world f)) |} in
  let max_data_bytes := Z.of_nat (length pcm) in
  let call := call_opus_encode st pcm frame_size max_data_bytes in
  let '(ret, out) :=
    opus_encode lib (native_log (world f)) st pcm frame_size max_data_bytes in
  let '(r, f2) := Encoder_encode pcm frame_size f1 in
  (exists rest, native_log (world f2) = native_log (world f) ++ call :: rest) /\
  r = if ret <? 0
      then Raise (OpusError ret (opus_strerror lib (native_log (world f) ++ [call]) ret))
      else Ok (take (Z.to_nat ret) (store out (replicate (length pcm) "000"%byte))).
Proof.
  intros Hopen Hall Hst. cbv zeta.
  rewrite (load_opus_success env name lib (world f) Hopen Hall). cbn [snd].
  rewrite (encode_cases _ {| dll := lib; prototypes := exported_functions |} st
             pcm frame_size); [| reflexivity | exact Hst].
  cbv zeta. cbn [world self set_lib native_log dll].
  destruct (opus_encode _ _ _ _ _ _) as [ret out].
  destruct (ret <? 0); cbn.
  - split; [| reflexivity]. eexists. rewrite <- app_assoc. reflexivity.
  - split; [| reflexivity]. eexists. reflexivity.
Qed.

Lemma encode_uses_current_binding_witness :
  LoadLibrary Upgrade.env (Some "libopus.so.1") = Some Upgrade.libopus_next /\
  (forall s, s ∈ required_symbols -> s ∈ exports Upgrade.libopus_next) /\
  _state (self Demo.ready) = Some (Ptr 4096) /\
  let f := Demo.ready in
  let f1 := {| self := self f;
               world := snd (load_opus Upgrade.env "libopus.so.1" (world f)) |} in
  let max_data_bytes := Z.of_nat (length Demo.silence) in
  let call := call_opus_encode (Ptr 4096) Demo.silence 960 max_data_bytes in
  let '(ret, out) :=
    opus_encode Upgrade.libopus_next (native_log (world f)) (Ptr 4096) Demo.silence 960
      max_data_bytes in
  let '(r, f2) := Encoder_encode Demo.silence 960 f1 in
  (exists rest, native_log (world f2) = native_log (world f) ++ call :: rest) /\
  r = if ret <? 0
      then Raise (OpusError ret (opus_strerror Upgrade.libopus_next
                                   (native_log (world f) ++ [call]) ret))
      else Ok (take (Z.to_nat ret)
                 (store out (replicate (length Demo.silence) "000"%byte))).
Proof.
  assert (Hall : forall s, s ∈ required_symbols -> s ∈ exports Upgrade.libopus_next)
    by (apply first_missing_None; reflexivity).
  split; [reflexivity |]. split; [exact Hall |]. split; [reflexivity |].
  exact (encode_uses_current_binding Upgrade.env "libopus.so.1" Upgrade.libopus_next
           Demo.ready (Ptr 4096) Demo.silence 960 eq_refl Hall eq_refl).
Defined.

(** The same frame, before and after the second library is loaded. *)
Example encode_after_upgrade :
  fst (Encoder_encode Demo.silence 960 Demo.ready) =
    Ok [ "248"%byte; "255"%byte; "254"%byte ] /\
  fst (Encoder_encode Demo.silence 960
         (step Upgrade.env (do_load "libopus.so.1") Demo.ready)) =
    Ok [ "248"%byte ].
Proof. vm_compute. auto. Qed.

(** *** Sequences of operations *)

Lemma load_world env name w :
  let w' := snd (load_opus env name w) in
  native_log w' = native_log w /\
  (is_Some (_lib w) -> is_Some (_lib w')) /\
  (_lib w' = None -> w' = w).
Proof.
  cbv zeta. rewrite load_opus_cases.
  destruct (LoadLibrary env (Some name)) as [lib |]; [| cbn; auto].
  destruct (first_missing lib required_symbols); cbn; [auto |].
  split; [reflexivity |]. split; [eauto | discriminate].
Qed.

Lemma construct_world s c application w :
  let f := snd (construct s c application w) in
  _lib (world f) = _lib w /\
  (exists added, native_log (world f) = native_log w ++ added) /\
  (is_Some (_state (self f)) -> is_Some (_lib w)) /\
  (_lib w = None -> world f = w).
Proof.
  cbv zeta. rewrite construct_cases. cbv zeta.
  assert (Hnone : forall A (x : A), ~ is_Some (@None A)) by (intros A x [y Hy]; discriminate).
  destruct (samples_in_frame s 20) as [n | exc].
  - destruct (_lib w) as [l |] eqn:Hl.
    + destruct (opus_encoder_create _ _ _ _ _) as [result ret].
      destruct (ret =? 0); cbn; rewrite Hl;
        (split; [reflexivity |]); (split; [eexists; rewrite <- ?app_assoc; reflexivity |]);
        (split; [eauto | discriminate]).
    + cbn. rewrite Hl. split; [reflexivity |].
      split; [exists []; rewrite app_nil_r; reflexivity |].
      split; [intros [y Hy]; discriminate | reflexivity].
  - cbn. split; [reflexivity |].
    split; [exists []; rewrite app_nil_r; reflexivity |].
    split; [intros [y Hy]; discriminate | reflexivity].
Qed.

Lemma del_world f :
  let f' := snd (Encoder__del__ f) in
  _lib (world f') = _lib (world f) /\
  (exists added, native_log (world f') = native_log (world f) ++ added) /\
  (is_Some (_state (self f')) -> is_Some (_state (self f))) /\
  (_state (self f) = None \/ _lib (world f) = None -> f' = f).
Proof.
  cbv zeta. destruct (_state (self f)) as [st |] eqn:Hst.
  - destruct (_lib (world f)) as [l |] eqn:Hl.
    + rewrite (del_with_state f l st Hl Hst). cbn.
      split; [exact Hl |]. split; [eexists; reflexivity |].
      split; [eauto |]. intros [H | H]; discriminate.
    + rewrite (del_without_lib f st Hl Hst). cbn. rewrite Hl, Hst.
      split; [reflexivity |]. split; [exists []; rewrite app_nil_r; reflexivity |]. auto.
  - rewrite (del_without_state f Hst). cbn. rewrite Hst.
    split; [reflexivity |]. split; [exists []; rewrite app_nil_r; reflexivity |]. auto.
Qed.

Lemma step_lib env o f :
  is_Some (_lib (world f)) -> is_Some (_lib (world (step env o f))).
Proof.
  intros H. destruct o as [name | s c app | pcm fs |]; cbn [step world].
  - apply (load_world env name (world f)). exact H.
  - destruct (construct_world s c app (world f)) as (-> & _). exact H.
  - destruct (encode_frame f pcm fs) as (_ & -> & _). exact H.
  - destruct (del_world f) as (-> & _). exact H.
Qed.

Lemma step_log env o f :
  exists added, native_log (world (step env o f)) = native_log (world f) ++ added.
Proof.
  destruct o as [name | s c app | pcm fs |]; cbn [step world].
  - exists []. rewrite app_nil_r. apply (load_world env name (world f)).
  - apply (construct_world s c app (world f)).
  - destruct (encode_frame f pcm fs) as (_ & _ & added & -> & _). eauto.
  - apply (del_world f).
Qed.

Lemma step_consistent env o f : consistent f -> consistent (step env o f).
Proof.
  intros [Hst Hlog]. unfold consistent.
  destruct o as [name | s c app | pcm fs |]; cbn [step world self].
  - destruct (load_world env name (world f)) as (Hl & Hsome & Hnone).
    split; [intros H; apply Hsome, Hst, H |].
    intros H. rewrite Hl. apply Hlog. rewrite <- (Hnone H). exact H.
  - destruct (construct_world s c app (world f)) as (Hl & _ & Hsome & Hnone).
    rewrite Hl. split; [exact Hsome |].
    intros H. rewrite (Hnone H). apply Hlog, H.
  - destruct (encode_frame f pcm fs) as (Hs & Hl & added & Hadd & Hnone).
    rewrite Hs, Hl. split; [exact Hst |].
    intros H. rewrite Hadd, (Hlog H), (Hnone H). reflexivity.
  - destruct (del_world f) as (Hl & _ & Hsome & Hsame).
    rewrite Hl. split; [intros H; apply Hst, Hsome, H |].
    intros H. rewrite Hsame; [apply Hlog, H | right; exact H].
Qed.

Lemma run_consistent env ops : forall f, consistent f -> consistent (run env ops f).
Proof.
  induction ops as [| o ops IH]; intros f Hf; cbn; [exact Hf |].
  apply IH, step_consistent, Hf.
Qed.

Lemma start_consistent env : consistent (start env).
Proof.
  unfold consistent, start. cbn [self world new_object _state].
  split; [intros [st Hst]; discriminate |].
  intros _. apply (module_init_log env fresh_process).
Qed.

(** X12. In every state a program can reach from the import by loading,
    constructing, encoding and tearing down in any order, an encoder has a
    [_state] only while a library is bound, so that [__del__] never raises;
    and while no library is bound not one native call has been made. *)
Theorem reachable_states (env : Env) (ops : list Op) :
  let f := run env ops (start env) in
  (is_Some (_state (self f)) -> is_Some (_lib (world f))) /\
  (is_loaded (world f) = false -> native_log (world f) = []) /\
  fst (Encoder__del__ f) = Ok tt.
Proof.
  cbv zeta. destruct (run_consistent env ops (start env) (start_consistent env))
    as [Hst Hlog].
  split; [exact Hst |]. split.
  - intros H. apply Hlog. unfold is_loaded in H.
    destruct (_lib (world (run env ops (start env)))); [discriminate | reflexivity].
  - destruct (_state (self (run env ops (start env)))) as [st |] eqn:Hs.
    + destruct Hst as [l Hl]; [eauto |].
      rewrite (del_with_state _ l st Hl Hs). reflexivity.
    + rewrite (del_without_state _ Hs). reflexivity.
Qed.

(** X13. No operation unbinds the library or takes back a native call: from
    any state, after any sequence of operations, a library that was bound is
    still bound (the one bound by the last load that succeeded, if any did),
    and the native log has only grown. *)
Theorem binding_and_log_only_grow (env : Env) (ops : list Op) (f : Frame) :
  (is_loaded (world f) = true -> is_loaded (world (run env ops f)) = true) /\
  exists added, native_log (world (run env ops f)) = native_log (world f) ++ added.
Proof.
  revert f. induction ops as [| o ops IH]; intros f.
  - split; [auto |]. exists []. rewrite app_nil_r. reflexivity.
  - change (run env (o :: ops) f) with (run env ops (step env o f)).
    destruct (IH (step env o f)) as (Hl & added & Hadd).
    destruct (step_log env o f) as (added0 & Hadd0). split.
    + intros H. apply Hl. pose proof (step_lib env o f) as Hs.
      unfold is_loaded in *. destruct (_lib (world f)); [| discriminate].
      destruct Hs as [l' ->]; eauto.
    + exists (added0 ++ added). rewrite Hadd, Hadd0, app_assoc. reflexivity.
Qed.

Lemma reachable_states_witness :
  let f := run Demo.bare_env
             [ do_construct 48000 2 None; do_encode Demo.silence 960; do_del ]
             (start Demo.bare_env) in
  is_loaded (world f) = false /\
  native_log (world f) = [] /\
  fst (Encoder__del__ f) = Ok tt.
Proof.
  cbv zeta. split; [reflexivity |].
  pose proof (reachable_states Demo.bare_env
                [ do_construct 48000 2 None; do_encode Demo.silence 960; do_del ])
    as (_ & Hlog & Hdel).
  split; [exact (Hlog eq_refl) | exact Hdel].
Defined.

Lemma binding_and_log_only_grow_witness :
  let ops := [ do_load "definitely-nonexistent-library-xyz"; do_del;
               do_encode Demo.silence 960; do_load "libm.so.6" ] in
  is_loaded (world Demo.ready) = true /\
  is_loaded (world (run Demo.env ops Demo.ready)) = true /\
  exists added,
    native_log (world (run Demo.env ops Demo.ready)) =
    native_log (world Demo.ready) ++ added.
Proof.
  cbv zeta. split; [reflexivity |].
  pose proof (binding_and_log_only_grow Demo.env
                [ do_load "definitely-nonexistent-library-xyz"; do_del;
                  do_encode Demo.silence 960; do_load "libm.so.6" ] Demo.ready)
    as (Hl & Hlog).
  split; [exact (Hl eq_refl) | exact Hlog].
Defined.

Example session :
  let f := run Demo.env
             [ do_construct 48000 2 None; do_encode Demo.silence 960; do_del;
               do_load "definitely-nonexistent-library-xyz"; do_del ]
             (start Demo.env) in
  native_log (world f) =
    [ call_opus_encoder_create 48000 2 2049;
      call_opus_encode (Ptr 4096) Demo.silence 960 3840;
      call_opus_encoder_destroy (Ptr 4096);
      call_opus_encoder_destroy PyNone ] /\
  is_loaded (world f) = true.
Proof. vm_compute. auto. Qed.

(** *** Bytes *)

(** X14. Passing the output through [array.array('b', ...)] and back with
    [tobytes()] changes no byte, each one being read as a signed char between
    -128 and 127 on the way. *)
Theorem signed_char_round_trip (bs : bytes) :
  tobytes (array_b bs) = bs /\
  length (array_b bs) = length bs /\
  Forall (fun z => -128 <= z <= 127) (array_b bs).
Proof.
  split; [apply tobytes_array_b |]. split; [apply length_map |].
  unfold array_b. apply Forall_map, Forall_forall. intros b _.
  destruct b; vm_compute; split; discriminate.
Qed.

End OpusMore.

(** ** Further properties of [context.py] *)

Module ContextMore.
Import Context ContextSpec Driver.

(** X15. Driven with any values, [Context.invoke] yields exactly what the
    coroutine it delegates to yields, stays suspended where that one does and
    raises what that one raises; when that one returns, with whatever value,
    [invoke] returns [None]. *)
Theorem invoke_is_transparent (self : Context) (command : Command)
    (kwargs : gmap string PyVal) (sent : list PyVal) :
  let delegate :=
    if bool_decide (kwargs = ∅) then invoke command self else callback command kwargs in
  drive (Context_invoke self command kwargs) sent =
  let '(ys, o) := drive delegate sent in
  (ys, match o with Returned _ => Returned VNone | _ => o end).
Proof.
  cbv zeta. unfold Context_invoke. rewrite no_kwargs.
  destruct (bool_decide (kwargs = ∅)); apply drive_yield_from.
Qed.

(** X16. A context built from keyword arguments that spell out all ten
    attributes is the context with those attributes: nothing is lost or
    swapped between the keywords and the fields. *)
Theorem context_round_trip (c : Context) : Context__init__ (attrs_of c) = Ok c.
Proof.
  rewrite Context__init__cases. unfold field_or, attrs_of.
  repeat (rewrite ?lookup_insert_eq; rewrite ?lookup_insert_ne by discriminate).
  destruct c. reflexivity.
Qed.

(** X17. The constructor reads the ten keywords of [__slots__] and nothing
    else: two sets of keyword arguments that agree on those ten build the same
    context, or fail alike. *)
Theorem context_reads_only_slots (attrs1 attrs2 : gmap string PyVal) :
  (forall key, key ∈ slots -> attrs1 !! key = attrs2 !! key) ->
  Context__init__ attrs1 = Context__init__ attrs2.
Proof.
  intros H. rewrite !Context__init__cases. unfold field_or.
  rewrite !(H _) by (unfold slots; set_solver). reflexivity.
Qed.

Lemma context_reads_only_slots_witness :
  (forall key, key ∈ slots ->
     (delete "colour" Demo.full) !! key = (<[ "size" := VInt 3 ]> Demo.full) !! key) /\
  Context__init__ (delete "colour" Demo.full) =
  Context__init__ (<[ "size" := VInt 3 ]> Demo.full).
Proof.
  assert (H : forall key, key ∈ slots ->
     (delete "colour" Demo.full) !! key = (<[ "size" := VInt 3 ]> Demo.full) !! key).
  { intros key Hkey.
    rewrite lookup_delete_ne, lookup_insert_ne; [reflexivity | |];
      intros <-; revert Hkey; unfold slots; rewrite !elem_of_cons, elem_of_nil;
      intros Hkey; repeat destruct Hkey as [Hkey | Hkey]; try discriminate; exact Hkey. }
  split; [exact H |].
  exact (context_reads_only_slots _ _ H).
Defined.

End ContextMore.
